(** * z3v_official.py: the Hunyuan3D batch driver, embedded and verified

    The driver is glue code: it walks a list of images and, for each one,
    changes into a per-image output directory, optionally removes the
    background, runs the shape and the paint pipelines and inspects the file
    the paint stage left behind.  Everything it does is an effect (files,
    the working directory, the console, calls into PIL and the Hunyuan3D
    pipelines) and every step may raise.  The embedding therefore threads an
    explicit [World] through a state-and-exception monad [M]; Python's
    [try]/[except Exception]/[finally] become combinators on [M].  The
    import-time shims of lines 24-67 (the [bpy] stub, the torchvision fix
    and the [convert_obj_to_glb] patch) take no part in what is proved
    here and are left out. *)

From Stdlib Require Import Strings.Byte Strings.String Strings.Ascii ZArith.
From stdpp Require Import gmap strings list sorting.

(** ** Python values: bytes and str *)

Module Py.

#[global] Instance byte_eq_dec : EqDecision byte := Byte.byte_eq_dec.

(** A bytes literal such as [b"glTF"]. *)
Definition b (s : string) : list byte := list_byte_of_string s.

(** [bs.startswith(pre)] *)
Fixpoint startswith (pre bs : list byte) : bool :=
  match pre, bs with
  | [], _ => true
  | _ :: _, [] => false
  | x :: pre', y :: bs' => bool_decide (x = y) && startswith pre' bs'
  end.

(** [needle in hay] on bytes: [needle] occurs as a contiguous slice. *)
Fixpoint contains (needle hay : list byte) : bool :=
  startswith needle hay ||
  match hay with
  | [] => false
  | _ :: hay' => contains needle hay'
  end.

(** The bytes that [bytes.lstrip()] removes: space, tab, newline, carriage
    return, vertical tab and form feed. *)
Definition is_space (x : byte) : bool :=
  bool_decide (x ∈ [x20; x09; x0a; x0d; x0b; x0c]).

(** [bs.lstrip()] *)
Fixpoint lstrip (bs : list byte) : list byte :=
  match bs with
  | [] => []
  | x :: bs' => if is_space x then lstrip bs' else bs
  end.

(** [f.read(n)] on a freshly opened regular file: at most [n] bytes. *)
Definition read (n : nat) (data : list byte) : list byte := take n data.

(** [s.lower()] on the ASCII letters ([A]..[Z] are 65..90). *)
Definition lower_ascii (a : ascii) : ascii :=
  let n := nat_of_ascii a in
  if ((65 <=? n) && (n <=? 90))%nat then ascii_of_nat (n + 32) else a.

Fixpoint lower (s : string) : string :=
  match s with
  | EmptyString => EmptyString
  | String a r => String (lower_ascii a) (lower r)
  end.

(** [s.rfind(c)]: the index of the last occurrence of [c], or [-1]. *)
Fixpoint rfind (c : ascii) (s : string) : Z :=
  match s with
  | EmptyString => -1
  | String a r =>
      let j := rfind c r in
      if 0 <=? j then 1 + j else if Ascii.eqb a c then 0 else -1
  end%Z.

(** [s[i:]] and [s[:i]] for [0 <= i]. *)
Fixpoint str_drop (i : nat) (s : string) : string :=
  match i, s with
  | O, _ => s
  | S i', String _ r => str_drop i' r
  | S _, EmptyString => EmptyString
  end.

Fixpoint str_take (i : nat) (s : string) : string :=
  match i, s with
  | O, _ => EmptyString
  | S i', String a r => String a (str_take i' r)
  | S _, EmptyString => EmptyString
  end.

(** [c * n] for a one-character string. *)
Fixpoint str_repeat (c : ascii) (n : nat) : string :=
  match n with
  | O => EmptyString
  | S n' => String c (str_repeat c n')
  end.

(** The newline character of ["\n"]. *)
Definition nl : string := String (ascii_of_nat 10) EmptyString.

End Py.

(** ** pathlib

    A [Path] is an absolute path, kept as the list of its components below
    the root.  *)

Module Pathlib.

Abbreviation Path := (list string).

(** [p / s] for a single component [s]. *)
Definition join (p : Path) (s : string) : Path := p ++ [s].

(** [p.parent] *)
Definition parent (p : Path) : Path := removelast p.

(** [p.name]: the last component, [''] for the root. *)
Definition name (p : Path) : string := List.last p EmptyString.

(** pathlib's split of a file name at its last dot: the dot counts only
    when it is neither the first nor the last character
    ([0 < i < len(name) - 1]). *)
Definition dot_index (nm : string) : option nat :=
  let i := Py.rfind "."%char nm in
  if ((0 <? i) && (i <? Z.of_nat (String.length nm) - 1))%Z
  then Some (Z.to_nat i)
  else None.

(** [PurePath.suffix] on a name. *)
Definition name_suffix (nm : string) : string :=
  match dot_index nm with
  | Some i => Py.str_drop i nm
  | None => EmptyString
  end.

(** [PurePath.stem] on a name. *)
Definition name_stem (nm : string) : string :=
  match dot_index nm with
  | Some i => Py.str_take i nm
  | None => nm
  end.

Definition suffix (p : Path) : string := name_suffix (name p).
Definition stem (p : Path) : string := name_stem (name p).

(** [p.resolve()] without symbolic links: [.] and empty components go,
    [..] pops one component (and stays at the root). *)
Definition resolve_step (acc : Path) (c : string) : Path :=
  if bool_decide (c = "." ∨ c = "")%string then acc
  else if bool_decide (c = "..")%string then removelast acc
  else acc ++ [c].

Definition resolve (p : Path) : Path := foldl resolve_step [] p.

(** [str(p)] *)
Definition to_str (p : Path) : string :=
  match p with
  | [] => "/"
  | _ => String.concat "" (List.map (fun c => "/" +:+ c) p)
  end%string.

End Pathlib.

Export Pathlib.

(** ** The process and its environment *)

Module OS.

(** What a path names: a directory, a regular file with its content, or a
    regular file the process is not allowed to open. *)
Inductive node :=
  | Dir
  | File (data : list byte)
  | NoAccess.

(** The file system (keyed by resolved absolute paths; the root is always
    a directory), the working directory of the process and the lines
    printed so far. *)
Record World := mkWorld {
  fs : gmap Path node;
  cwd : Path;
  stdout : list string
}.

Definition set_fs (m : gmap Path node) (w : World) : World :=
  mkWorld m (cwd w) (stdout w).
Definition set_cwd (d : Path) (w : World) : World :=
  mkWorld (fs w) d (stdout w).
Definition emit (line : string) (w : World) : World :=
  mkWorld (fs w) (cwd w) (stdout w ++ [line]).

(** Python exceptions, by what [except Exception] can see: instances of
    [Exception] (every error the file system, PIL or a pipeline reports)
    and the system-exiting ones below [BaseException] only
    ([KeyboardInterrupt], [SystemExit], [GeneratorExit]).  [msg] is what
    [str(e)] gives. *)
Inductive exn :=
  | Exception (msg : string)
  | SystemExiting (msg : string).

Inductive result (A : Type) :=
  | Ok (a : A)
  | Raise (e : exn).
Arguments Ok {A} a.
Arguments Raise {A} e.

(** A computation: from a world to a value or a raised exception, and the
    world it leaves. *)
Definition M (A : Type) : Type := World -> result A * World.

#[global] Instance M_ret : MRet M := fun A a w => (Ok a, w).

#[global] Instance M_bind : MBind M := fun A B k m w =>
  match m w with
  | (Ok a, w') => k a w'
  | (Raise e, w') => (Raise e, w')
  end.

Definition raise {A} (e : exn) : M A := fun w => (Raise e, w).

(** [try: body / except Exception as e: handler(str(e))].  A
    system-exiting exception passes through. *)
Definition try_except {A} (body : M A) (handler : string -> M A) : M A :=
  fun w =>
    match body w with
    | (Raise (Exception msg), w') => handler msg w'
    | r => r
    end.

(** [try: body / finally: fin].  [fin] runs on every exit of [body]; the
    outcome of [body] stands unless [fin] itself raises. *)
Definition try_finally {A} (body : M A) (fin : M unit) : M A :=
  fun w =>
    let '(r, w1) := body w in
    match fin w1 with
    | (Ok _, w2) => (r, w2)
    | (Raise e, w2) => (Raise e, w2)
    end.

(** [for x in xs: f(x)] *)
Fixpoint for_each {A} (xs : list A) (f : A -> M unit) : M unit :=
  match xs with
  | [] => mret tt
  | x :: rest => f x ;; for_each rest f
  end.

(** [print(line)] *)
Definition print (line : string) : M unit := fun w => (Ok tt, emit line w).

Definition node_at (w : World) (p : Path) : option node :=
  match p with
  | [] => Some Dir
  | _ => fs w !! p
  end.

(** [p.exists()], [p.is_file()], [p.is_dir()] *)
Definition path_exists (w : World) (p : Path) : bool :=
  match node_at w p with Some _ => true | None => false end.
Definition is_file (w : World) (p : Path) : bool :=
  match node_at w p with Some (File _) | Some NoAccess => true | _ => false end.
Definition is_dir (w : World) (p : Path) : bool :=
  match node_at w p with Some Dir => true | _ => false end.

(** [Path.cwd()] *)
Definition getcwd : M Path := fun w => (Ok (cwd w), w).

(** [os.chdir(d)] *)
Definition chdir (d : Path) : M unit := fun w =>
  match node_at w d with
  | Some Dir => (Ok tt, set_cwd d w)
  | Some _ => (Raise (Exception "NotADirectoryError"), w)
  | None => (Raise (Exception "FileNotFoundError"), w)
  end.

(** [open(p, "rb")] followed by reading the whole file. *)
Definition open_rb (p : Path) : M (list byte) := fun w =>
  match node_at w p with
  | Some (File data) => (Ok data, w)
  | Some Dir => (Raise (Exception "IsADirectoryError"), w)
  | Some NoAccess => (Raise (Exception "PermissionError"), w)
  | None => (Raise (Exception "FileNotFoundError"), w)
  end.

(** [open(p, "wb")] followed by writing [data]. *)
Definition write_file (p : Path) (data : list byte) : M unit := fun w =>
  if is_dir w (parent p) then
    match node_at w p with
    | Some Dir => (Raise (Exception "IsADirectoryError"), w)
    | Some NoAccess => (Raise (Exception "PermissionError"), w)
    | _ => (Ok tt, set_fs (<[p := File data]> (fs w)) w)
    end
  else (Raise (Exception "FileNotFoundError"), w).

(** The non-empty prefixes of [p]: its ancestors below the root, then [p]. *)
Definition ancestors_and_self (p : Path) : list Path :=
  List.map (fun n => take n p) (seq 1 (length p)).

(** [p.mkdir(parents=True, exist_ok=True)]: every missing directory on the
    way is created; a regular file on the way makes it raise. *)
Definition mkdir (p : Path) : M unit := fun w =>
  if forallb (fun q => match fs w !! q with
                       | Some Dir | None => true
                       | _ => false
                       end) (ancestors_and_self p)
  then (Ok tt, set_fs (foldr (fun q m => <[q := Dir]> m) (fs w)
                             (ancestors_and_self p)) w)
  else (Raise (Exception (if is_file w p then "FileExistsError"
                          else "NotADirectoryError")), w).

(** The paths directly below [d]. *)
Definition children (w : World) (d : Path) : list Path :=
  List.filter (fun k => bool_decide (k <> [] /\ parent k = d))
              (List.map fst (map_to_list (fs w))).

(** [d.iterdir()], in the order the directory yields its entries. *)
Definition iterdir (d : Path) : M (list Path) := fun w =>
  match node_at w d with
  | Some Dir => (Ok (children w d), w)
  | Some _ => (Raise (Exception "NotADirectoryError"), w)
  | None => (Raise (Exception "FileNotFoundError"), w)
  end.

(** The order of [Path] objects: component by component, strings by code
    point. *)
Fixpoint path_leb (p q : Path) : bool :=
  match p, q with
  | [], _ => true
  | _ :: _, [] => false
  | a :: p', c :: q' =>
      match String.compare a c with
      | Lt => true
      | Gt => false
      | Eq => path_leb p' q'
      end
  end.

(** [sorted(ps)] *)
Definition sorted (ps : list Path) : list Path :=
  merge_sort (fun p q => Is_true (path_leb p q)) ps.

(** Moving the subtree below [src] to [dst]. *)
Definition rekey (src dst k : Path) : Path :=
  if bool_decide (src `prefix_of` k) then dst ++ drop (length src) k else k.

(** [os.replace(src, dst)].  A regular file replaces whatever regular file
    is at [dst]; a directory moves with its content, onto nothing or onto
    an empty directory. *)
Definition replace (src dst : Path) : M unit := fun w =>
  match node_at w src with
  | None => (Raise (Exception "FileNotFoundError"), w)
  | Some Dir =>
      if bool_decide (src = dst) then (Ok tt, w)
      else if bool_decide (src `prefix_of` dst) then
        (Raise (Exception "OSError"), w)
      else if negb (is_dir w (parent dst)) then
        (Raise (Exception "FileNotFoundError"), w)
      else
        match node_at w dst with
        | Some (File _) | Some NoAccess =>
            (Raise (Exception "NotADirectoryError"), w)
        | Some Dir =>
            match children w dst with
            | [] => (Ok tt, set_fs (kmap (rekey src dst) (delete dst (fs w))) w)
            | _ :: _ => (Raise (Exception "OSError"), w)
            end
        | None => (Ok tt, set_fs (kmap (rekey src dst) (fs w)) w)
        end
  | Some n =>
      if is_dir w (parent dst) then
        match node_at w dst with
        | Some Dir => (Raise (Exception "IsADirectoryError"), w)
        | _ => (Ok tt, set_fs (<[dst := n]> (delete src (fs w))) w)
        end
      else (Raise (Exception "FileNotFoundError"), w)
  end.

End OS.

Export OS.

(** [w.field] read from inside a computation. *)
Definition gets {A} (f : World -> A) : M A := fun w => (Ok (f w), w).

(** ** External collaborators

    PIL, the background remover and the two Hunyuan3D pipelines are
    imported, not implemented, by the script.  They are an interface here;
    the pipelines may do to the world whatever they like. *)

(** A PIL image: its mode, the keys of its [info] dictionary and its
    raster data. *)
Record Image := mkImage {
  mode : string;
  info : list string;
  pixels : list byte
}.

(** [Hunyuan3DPaintConfig] with the three attributes [main] sets. *)
Record PaintConfig := mkPaintConfig {
  max_num_view : Z;
  resolution : Z;
  realesrgan_ckpt_path : string;
  multiview_cfg_path : string;
  custom_pipeline : string
}.

Class Externals := {
  (** the mesh objects the shape pipeline returns *)
  Mesh : Type;
  ShapePipeline : Type;
  PaintPipeline : Type;
  (** PIL: what [Image.open] makes of a file's bytes ([inl msg] when it
      raises), the [info] and raster of [im.convert(mode)], and the encoder
      [im.save] picks for a lower-cased file extension *)
  pil_identify : list byte -> string + Image;
  pil_convert : string -> Image -> list string * list byte;
  pil_encode : string -> Image -> string + list byte;
  (** [BackgroundRemover()(im)] *)
  BackgroundRemover : Image -> M Image;
  (** [Hunyuan3DDiTFlowMatchingPipeline.from_pretrained(path)] and the call
      [pipeline(image=im)] *)
  from_pretrained : string -> M ShapePipeline;
  shapegen : ShapePipeline -> Image -> M (list Mesh);
  (** [mesh.export(path)] *)
  mesh_export : Mesh -> string -> M unit;
  (** [Hunyuan3DPaintPipeline(conf)] and the call
      [pipeline(mesh_path=, image_path=, output_mesh_path=)] *)
  Hunyuan3DPaintPipeline : PaintConfig -> M PaintPipeline;
  paint : PaintPipeline -> string -> string -> string -> M unit;
  (** [Path(s).expanduser()], joined to the working directory and resolved
      when it is relative *)
  user_path : string -> Path -> Path
}.

(** ** The script *)

Definition MODEL_PATH : string := "/path/to/hy3d/models/Hunyuan3D-2.1".
Definition MAX_NUM_VIEW : Z := 8.
Definition RESOLUTION : Z := 512.

(** The parsed command line. *)
Record Args := mkArgs {
  remove_bg : bool;
  force_remove : bool;
  path : option string
}.

Section Script.

Context `{Ext : Externals}.

(** [Image.open(p)] *)
Definition Image_open (p : Path) : M Image :=
  data ← open_rb p;
  match pil_identify data with
  | inl msg => raise (Exception msg)
  | inr im => mret im
  end.

(** [im.convert(m)] *)
Definition convert (m : string) (im : Image) : Image :=
  let '(i, px) := pil_convert m im in mkImage m i px.

(** [im.save(dst)]: the format follows the extension of [dst]. *)
Definition Image_save (im : Image) (dst : Path) : M unit :=
  match pil_encode (Py.lower (suffix dst)) im with
  | inl msg => raise (Exception msg)
  | inr data => write_file dst data
  end.

(** lines 70-76 *)
Definition is_valid_glb (path : Path) : M bool :=
  try_except
    (data ← open_rb path;
     mret (bool_decide (Py.read 4 data = Py.b "glTF")))
    (fun _ => mret false).

(** lines 84-89: the test on the bytes read *)
Definition obj_heuristic (head : list byte) : bool :=
  Py.contains (Py.b "mtllib") head
  || Py.startswith (Py.b "#") (Py.lstrip head)
  || Py.startswith (Py.b "o ") (Py.lstrip head)
  || Py.startswith (Py.b "v ") (Py.lstrip head).

(** lines 79-91 *)
Definition looks_like_obj_text (path : Path) : M bool :=
  try_except
    (data ← open_rb path;
     let head := Py.read 64 data in
     mret (obj_heuristic head))
    (fun _ => mret false).

(** lines 94-105 *)
Definition has_alpha_png (p : Path) : M bool :=
  if bool_decide (Py.lower (suffix p) <> ".png") then mret false
  else
    try_except
      (im ← Image_open p;
       if bool_decide (mode im ∈ ["RGBA"; "LA"]) then mret true
       else mret (bool_decide ("transparency" ∈ info im)))
      (fun _ => mret false).

(** lines 117-127: the removal proper *)
Definition run_removal (src dst_png : Path) : M Path :=
  mkdir (parent dst_png);;
  im ← Image_open src;
  let im_rgb := if bool_decide (mode im <> "RGB") then convert "RGB" im
                else im in
  out ← BackgroundRemover im_rgb;
  let out := convert "RGBA" out in
  Image_save out dst_png;;
  mret dst_png.

(** lines 108-127 *)
Definition remove_background_to_png (src dst_png : Path) (force : bool)
  : M Path :=
  skip ← (if negb force then has_alpha_png src else mret false);
  if (skip : bool) then mret src else run_removal src dst_png.

Definition exts : list string :=
  [".png"; ".jpg"; ".jpeg"; ".webp"; ".bmp"; ".tif"; ".tiff"].

(** lines 130-136 *)
Definition collect_images (input_dir : Path) : M (list Path) :=
  entries ← iterdir input_dir;
  gets (fun w =>
    List.filter
      (fun p => is_file w p && bool_decide (Py.lower (suffix p) ∈ exts))
      (sorted entries)).

(** lines 174-184: which images to process; [None] is the early [return]
    after the [--path] error.  An empty [--path] is falsy and selects the
    scan of [input_dir], like no [--path] at all. *)
Definition select_images (args : Args) (input_dir : Path)
  : M (option (list Path)) :=
  match path args with
  | Some s =>
      if bool_decide (s <> "") then
        here ← getcwd;
        let single := user_path s here in
        missing ← gets (fun w => negb (path_exists w single)
                                 || negb (is_file w single));
        if (missing : bool) then
          print ("[ERROR] --path file not found: " +:+ to_str single);;
          mret None
        else mret (Some [single])
      else images ← collect_images input_dir; mret (Some images)
  | None => images ← collect_images input_dir; mret (Some images)
  end.

(** The paths of a job (lines 205-206, 220, 234, 240 and 252). *)
Definition per_item_dir (output_dir img_path : Path) : Path :=
  resolve (join output_dir (stem img_path)).
Definition bg_png (output_dir img_path : Path) : Path :=
  join (per_item_dir output_dir img_path) (stem img_path +:+ "_bgremoved.png").
Definition shape_glb (output_dir img_path : Path) : Path :=
  join (per_item_dir output_dir img_path) (stem img_path +:+ "_shape.glb").
Definition out_glb_maybe (output_dir img_path : Path) : Path :=
  join (per_item_dir output_dir img_path) (stem img_path +:+ "_textured.glb").
Definition out_obj (output_dir img_path : Path) : Path :=
  join (per_item_dir output_dir img_path) (stem img_path +:+ "_textured.obj").

(** lines 205-214: the job's directory is made, announced and entered;
    the result is [old_cwd]. *)
Definition job_enter (output_dir img_path : Path) : M Path :=
  mkdir (per_item_dir output_dir img_path);;
  print (Py.nl +:+ Py.str_repeat "=" 70);;
  print ("[INFO] Processing: " +:+ name img_path);;
  print ("[INFO] Output dir:  " +:+ to_str (per_item_dir output_dir img_path));;
  old_cwd ← getcwd;
  chdir (per_item_dir output_dir img_path);;
  mret old_cwd.

(** lines 218-224: the image the models are given. *)
Definition job_input (args : Args) (output_dir img_path : Path) : M Path :=
  if remove_bg args then
    input_for_model ←
      remove_background_to_png img_path (bg_png output_dir img_path)
                               (force_remove args);
    print ("[OK] BG removed -> " +:+ name input_for_model);;
    mret input_for_model
  else mret img_path.

(** lines 226-245: shape, then paint. *)
Definition job_models (pipeline_shapegen : ShapePipeline)
    (paint_pipeline : PaintPipeline) (output_dir img_path : Path)
    (input_for_model : Path) : M unit :=
  image ← Image_open input_for_model;
  let image := if bool_decide (mode image <> "RGBA")
               then convert "RGBA" image else image in
  meshes ← shapegen pipeline_shapegen image;
  mesh ← match meshes with
         | mesh :: _ => mret mesh
         | [] => raise (Exception "list index out of range")
         end;
  mesh_export mesh (to_str (shape_glb output_dir img_path));;
  print ("[OK] Shape exported: " +:+ name (shape_glb output_dir img_path));;
  paint paint_pipeline (to_str (shape_glb output_dir img_path))
        (to_str input_for_model)
        (to_str (out_glb_maybe output_dir img_path)).

(** lines 218-245: background removal, shape and paint. *)
Definition job_pipeline (args : Args) (pipeline_shapegen : ShapePipeline)
    (paint_pipeline : PaintPipeline) (output_dir img_path : Path) : M unit :=
  input_for_model ← job_input args output_dir img_path;
  job_models pipeline_shapegen paint_pipeline output_dir img_path
             input_for_model.

(** lines 247-258: what the paint stage left at [out_glb_maybe]. *)
Definition verify_output (output_dir img_path : Path) : M unit :=
  present ← gets (fun w => path_exists w (out_glb_maybe output_dir img_path));
  if (present : bool) then
    glb ← is_valid_glb (out_glb_maybe output_dir img_path);
    if (glb : bool) then
      print ("[OK] Textured GLB exported: "
             +:+ name (out_glb_maybe output_dir img_path))
    else
      obj ← looks_like_obj_text (out_glb_maybe output_dir img_path);
      if (obj : bool) then
        replace (out_glb_maybe output_dir img_path)
                (out_obj output_dir img_path);;
        print ("[FIX] Output was OBJ text, renamed to: "
               +:+ name (out_obj output_dir img_path))
      else
        print ("[WARN] Output exists but is not valid GLB and doesn't look like OBJ: "
               +:+ name (out_glb_maybe output_dir img_path))
  else
    print "[WARN] output_mesh_path not found after paint. Check logs in this folder.".

(** lines 216-258: the body of the [try]. *)
Definition job_body (args : Args) (pipeline_shapegen : ShapePipeline)
    (paint_pipeline : PaintPipeline) (output_dir img_path : Path) : M unit :=
  job_pipeline args pipeline_shapegen paint_pipeline output_dir img_path;;
  verify_output output_dir img_path.

(** lines 260-261: the [except Exception as e] clause. *)
Definition job_failed (img_path : Path) (e : string) : M unit :=
  print ("[ERROR] Failed on " +:+ name img_path +:+ ": " +:+ e).

(** lines 205-263: one turn of the loop. *)
Definition job (args : Args) (pipeline_shapegen : ShapePipeline)
    (paint_pipeline : PaintPipeline) (output_dir img_path : Path) : M unit :=
  old_cwd ← job_enter output_dir img_path;
  try_finally
    (try_except
       (job_body args pipeline_shapegen paint_pipeline output_dir img_path)
       (job_failed img_path))
    (chdir old_cwd).

(** lines 191-266: both pipelines are built, once, and the images are
    processed in order. *)
Definition run_batch (args : Args) (SCRIPT_DIR output_dir : Path)
    (images : list Path) : M unit :=
  let HY3DPAINT_DIR := resolve (join SCRIPT_DIR "hy3dpaint") in
  print ("[INFO] Loading shape model from: " +:+ MODEL_PATH);;
  pipeline_shapegen ← from_pretrained MODEL_PATH;
  let conf :=
    mkPaintConfig MAX_NUM_VIEW RESOLUTION
      (to_str (resolve (join (join HY3DPAINT_DIR "ckpt") "RealESRGAN_x4plus.pth")))
      (to_str (resolve (join (join HY3DPAINT_DIR "cfgs") "hunyuan-paint-pbr.yaml")))
      (to_str (resolve (join HY3DPAINT_DIR "hunyuanpaintpbr"))) in
  print "[INFO] Loading paint pipeline...";;
  paint_pipeline ← Hunyuan3DPaintPipeline conf;
  for_each images (job args pipeline_shapegen paint_pipeline output_dir);;
  print (Py.nl +:+ "[DONE] Completed.");;
  print ("[INFO] Outputs in: " +:+ to_str output_dir).

(** lines 139-266 *)
Definition main (SCRIPT_DIR : Path) (args : Args) : M unit :=
  let input_dir := resolve (join SCRIPT_DIR "input") in
  let output_dir := resolve (join SCRIPT_DIR "output") in
  mkdir input_dir;;
  mkdir output_dir;;
  selected ← select_images args input_dir;
  match selected with
  | None => mret tt
  | Some [] =>
      print ("[INFO] No images found in: " +:+ to_str input_dir);;
      print "[INFO] Put one or more images into ./input and run again, or use --path <file>."
  | Some images => run_batch args SCRIPT_DIR output_dir images
  end.

End Script.

(** ** Assumptions on the collaborators *)

(** [m] removes no directory at [d]. *)
Definition keeps_dir {A} (d : Path) (m : M A) : Prop :=
  forall w, is_dir w d = true -> is_dir (snd (m w)) d = true.

(** The spec's words for "already carries an alpha channel": true RGBA/LA
    mode, or palette mode with a transparency entry. *)
Definition spec_carries_alpha (im : Image) : Prop :=
  mode im = "RGBA" \/ mode im = "LA" \/
  (mode im = "P" /\ "transparency" ∈ info im).

(** ** A small installation to run the script on *)

Module Demo.

(** The components of a path written with slashes. *)
Fixpoint components (cur s : string) : list string :=
  match s with
  | EmptyString => [cur]
  | String c r =>
      if Ascii.eqb c "/" then cur :: components "" r
      else components (cur +:+ String c "") r
  end.

Definition of_str (s : string) : Path := resolve (components "" s).

(** A stand-in for PIL: the first bytes of a file spell its mode. *)
Definition identify (data : list byte) : string + Image :=
  if Py.startswith (Py.b "RGBA") data then inr (mkImage "RGBA" [] data)
  else if Py.startswith (Py.b "RGB") data then inr (mkImage "RGB" [] data)
  else if Py.startswith (Py.b "LA") data then inr (mkImage "LA" [] data)
  else if Py.startswith (Py.b "Pt") data
       then inr (mkImage "P" ["transparency"] data)
  else if Py.startswith (Py.b "P") data then inr (mkImage "P" [] data)
  else inl "cannot identify image file".

Definition encode (ext : string) (im : Image) : string + list byte :=
  if bool_decide (ext = ".png") then inr (Py.b (mode im) ++ Py.b ":" ++ pixels im)
  else inl "unknown file extension".

(** A background remover that reports its call on the console. *)
Definition rembg (im : Image) : M Image :=
  print "rembg: called";;
  mret (mkImage "LA" [] (Py.b "cut:" ++ pixels im)).

(** Constructors that report their calls. *)
Definition load_shape (model_path : string) : M unit :=
  print "shape pipeline: loaded".
Definition load_paint (conf : PaintConfig) : M unit :=
  print "paint pipeline: loaded".

(** The installation, for a given paint stage [pnt]; the shape stage
    exports a binary mesh. *)
Definition externals (pnt : Path -> M unit) : Externals := {|
  Mesh := unit;
  ShapePipeline := unit;
  PaintPipeline := unit;
  pil_identify := identify;
  pil_convert := fun _ im => ([], pixels im);
  pil_encode := encode;
  BackgroundRemover := rembg;
  from_pretrained := load_shape;
  shapegen := fun _ _ => mret [tt];
  mesh_export := fun _ p => write_file (of_str p) (Py.b "glTF-shape");
  Hunyuan3DPaintPipeline := load_paint;
  paint := fun _ _ _ out => pnt (of_str out);
  user_path := fun s here =>
    if Py.startswith (Py.b "/") (Py.b s) then of_str s
    else resolve (here ++ components "" s)
|}.

(** Paint stages: one that writes [data] to the requested path, one that
    writes nothing, one that fails. *)
Definition paint_writes (data : list byte) (out : Path) : M unit :=
  write_file out data.
Definition paint_idle (out : Path) : M unit := mret tt.
Definition paint_fails (out : Path) : M unit :=
  raise (Exception "CUDA out of memory").

Definition SCRIPT_DIR : Path := ["app"].
Definition output_dir : Path := ["app"; "output"].

Definition files (l : list (Path * node)) : World :=
  mkWorld (list_to_map l) ["home"] [].

(** Two images waiting in [input/]. *)
Definition two_images : World :=
  files [ (["home"], Dir); (["app"], Dir); (["app"; "input"], Dir);
          (["app"; "input"; "cat.png"], File (Py.b "RGB cat"));
          (["app"; "input"; "dog.jpg"], File (Py.b "RGB dog")) ].


(** A transparent image that is not a PNG file. *)
Definition webp_with_alpha : World :=
  files [ (["home"], Dir); (["app"], Dir); (["app"; "input"], Dir);
          (["app"; "input"; "logo.webp"], File (Py.b "RGBA logo")) ].

(** A transparent PNG. *)
Definition png_with_alpha : World :=
  files [ (["home"], Dir); (["app"], Dir); (["app"; "input"], Dir);
          (["app"; "input"; "logo.png"], File (Py.b "RGBA logo")) ].

(** A directory already sits where the renamed text mesh would go. *)
Definition obj_is_a_directory : World :=
  files [ (["home"], Dir); (["app"], Dir); (["app"; "input"], Dir);
          (["app"; "input"; "cat.png"], File (Py.b "RGBA cat"));
          (["app"; "output"], Dir); (["app"; "output"; "cat"], Dir);
          (["app"; "output"; "cat"; "cat_textured.obj"], Dir) ].

(** OBJ text whose [mtllib] line comes after 64 bytes of other
    directives. *)
Definition late_mtllib : list byte :=
  Py.b "g mesh_group_0000000000000000000000000000000000000000000000000000"
  ++ [x0a] ++ Py.b "mtllib material.mtl" ++ [x0a].

Definition late_mtllib_output : World :=
  files [ (["home"], Dir); (["app"], Dir); (["app"; "output"], Dir);
          (["app"; "output"; "cat"], Dir);
          (["app"; "output"; "cat"; "cat_textured.glb"], File late_mtllib) ].

(** The paint stage left something that is neither a binary mesh nor OBJ
    text. *)
Definition zip_output : World :=
  files [ (["home"], Dir); (["app"], Dir); (["app"; "output"], Dir);
          (["app"; "output"; "cat"], Dir);
          (["app"; "output"; "cat"; "cat_textured.glb"],
           File (Py.b "PK zip archive")) ].

(** The paint stage left OBJ text under the [.glb] name. *)
Definition obj_output : World :=
  files [ (["home"], Dir); (["app"], Dir); (["app"; "output"], Dir);
          (["app"; "output"; "cat"], Dir);
          (["app"; "output"; "cat"; "cat_textured.glb"],
           File (Py.b "  # Blender OBJ")) ].

Definition cat : Path := ["app"; "input"; "cat.png"].
Definition dog : Path := ["app"; "input"; "dog.jpg"].
Definition logo_webp : Path := ["app"; "input"; "logo.webp"].
Definition logo_png : Path := ["app"; "input"; "logo.png"].

Definition plain : Args := mkArgs false false None.
Definition with_remove_bg : Args := mkArgs true false None.


(** The worlds a run passes through. *)
Definition ready (w : World) : World :=
  snd ((mkdir (resolve (join SCRIPT_DIR "input"));;
        mkdir (resolve (join SCRIPT_DIR "output"))) w).

Definition entered (img : Path) (w : World) : World :=
  snd (job_enter output_dir img w).

Definition painted (pnt : Path -> M unit) (args : Args) (img : Path)
    (w : World) : World :=
  snd (job_pipeline (Ext := externals pnt) args tt tt output_dir img
                    (entered img w)).


End Demo.

(** ** More of the small installation *)

Module Samples.

Import Demo.

(** [input/] with three images, a text file, a directory that is named
    like an image and an image one level down. *)
Definition mixed_input : World :=
  files [ (["home"], Dir); (["app"], Dir); (["app"; "input"], Dir);
          (["app"; "input"; "dog.jpg"], File (Py.b "RGB dog"));
          (["app"; "input"; "UP.PNG"], File (Py.b "RGB up"));
          (["app"; "input"; "notes.txt"], File (Py.b "hello"));
          (["app"; "input"; "album.png"], Dir);
          (["app"; "input"; "album.png"; "deep.png"], File (Py.b "RGB deep"));
          (["app"; "input"; "cat.png"], NoAccess) ].

Definition input_dir : Path := ["app"; "input"].
Definition up_png : Path := ["app"; "input"; "UP.PNG"].
Definition deep_png : Path := ["app"; "input"; "album.png"; "deep.png"].
Definition notes_txt : Path := ["app"; "input"; "notes.txt"].

Definition found_in_mixed_input : list Path :=
  [ ["app"; "input"; "UP.PNG"]; ["app"; "input"; "cat.png"];
    ["app"; "input"; "dog.jpg"] ].

(** The installation with other constructors for the two pipelines. *)
Definition with_constructors (build_shape : string -> M unit)
    (build_paint : PaintConfig -> M unit) : Externals := {|
  Mesh := unit;
  ShapePipeline := unit;
  PaintPipeline := unit;
  pil_identify := identify;
  pil_convert := fun _ im => ([], pixels im);
  pil_encode := encode;
  BackgroundRemover := rembg;
  from_pretrained := build_shape;
  shapegen := fun _ _ => mret [tt];
  mesh_export := fun _ p => write_file (of_str p) (Py.b "glTF-shape");
  Hunyuan3DPaintPipeline := build_paint;
  paint := fun _ _ _ out => paint_idle (of_str out);
  user_path := fun s here =>
    if Py.startswith (Py.b "/") (Py.b s) then of_str s
    else resolve (here ++ components "" s)
|}.

Definition no_model (model_path : string) : M unit :=
  raise (Exception "model directory not found").
Definition no_paint_config (conf : PaintConfig) : M unit :=
  raise (Exception "hunyuan-paint-pbr.yaml not found").

(** A regular file sits where the directory of [dog.jpg]'s job would
    go. *)
Definition dog_dir_is_a_file : World :=
  files [ (["home"], Dir); (["app"], Dir); (["app"; "input"], Dir);
          (["app"; "input"; "cat.png"], File (Py.b "RGB cat"));
          (["app"; "input"; "dog.jpg"], File (Py.b "RGB dog"));
          (["app"; "output"], Dir);
          (["app"; "output"; "dog"], File (Py.b "oops")) ].

(** [cat.png] is not an image. *)
Definition garbled_cat : World :=
  files [ (["home"], Dir); (["app"], Dir); (["app"; "input"], Dir);
          (["app"; "input"; "cat.png"], File (Py.b "<html>not found</html>")) ].

(** The output of [Demo.late_mtllib_output], cut after 64 bytes. *)
Definition late_mtllib_cut : World :=
  files [ (["home"], Dir); (["app"], Dir); (["app"; "output"], Dir);
          (["app"; "output"; "cat"], Dir);
          (["app"; "output"; "cat"; "cat_textured.glb"],
           File (take 64 late_mtllib)) ].

(** The world after the background of [cat.png] has been removed. *)
Definition cat_cut_out : World :=
  snd (remove_background_to_png (Ext := externals paint_idle) cat
         (bg_png output_dir cat) false two_images).

End Samples.

(** * Facts *)

(** ** The monad *)

Lemma bind_ok {A B} (m : M A) (k : A -> M B) w a w' :
  m w = (Ok a, w') -> (m ≫= k) w = k a w'.
Proof. intros E. unfold mbind, M_bind. now rewrite E. Qed.

Lemma bind_raise {A B} (m : M A) (k : A -> M B) w e w' :
  m w = (Raise e, w') -> (m ≫= k) w = (Raise e, w').
Proof. intros E. unfold mbind, M_bind. now rewrite E. Qed.

Lemma bind_inv_ok {A B} (m : M A) (k : A -> M B) w b w2 :
  (m ≫= k) w = (Ok b, w2) ->
  exists a w1, m w = (Ok a, w1) /\ k a w1 = (Ok b, w2).
Proof.
  unfold mbind, M_bind. destruct (m w) as [[a|e] w1]; intros E.
  - eauto.
  - discriminate.
Qed.

Lemma bind_inv_raise {A B} (m : M A) (k : A -> M B) w e w2 :
  (m ≫= k) w = (Raise e, w2) ->
  m w = (Raise e, w2) \/
  exists a w1, m w = (Ok a, w1) /\ k a w1 = (Raise e, w2).
Proof.
  unfold mbind, M_bind. destruct (m w) as [[a|e'] w1]; intros E.
  - right. eauto.
  - left. congruence.
Qed.

Lemma print_eq line w : print line w = (Ok tt, emit line w).
Proof. reflexivity. Qed.

Lemma emit_inj l1 l2 w1 w2 : emit l1 w1 = emit l2 w2 -> stdout w1 = stdout w2 -> l1 = l2.
Proof.
  unfold emit. intros E S. injection E as _ _ E. rewrite S in E.
  apply app_inv_head in E. now injection E.
Qed.

(** [mkdir] only adds directories where nothing was. *)
Lemma mkdir_lookup (l : list Path) (m : gmap Path node) (q : Path) :
  foldr (fun q m => <[q := Dir]> m) m l !! q =
  if bool_decide (q ∈ l) then Some Dir else m !! q.
Proof.
  induction l as [|a l IH]; [reflexivity|]. cbn [foldr].
  destruct (decide (a = q)) as [->|N].
  - rewrite lookup_insert_eq, bool_decide_true; [reflexivity|left].
  - rewrite lookup_insert_ne by exact N. rewrite IH.
    destruct (decide (q ∈ l)) as [I|I].
    + rewrite !bool_decide_true; [reflexivity| now right | exact I].
    + rewrite !bool_decide_false; [reflexivity| | exact I].
      intros [->|]%elem_of_cons; [now apply N|now apply I].
Qed.

Lemma mkdir_keeps_node (p q : Path) w w1 n :
  mkdir p w = (Ok tt, w1) ->
  node_at w q = Some n ->
  node_at w1 q = Some n.
Proof.
  unfold mkdir.
  destruct (forallb _ (ancestors_and_self p)) eqn:A; [|discriminate].
  intros E. injection E as <-. destruct q as [|c q]; [exact id|].
  cbn [node_at set_fs fs]. intros Q. rewrite mkdir_lookup.
  case_bool_decide as I; [|exact Q].
  rewrite forallb_forall in A. apply list_elem_of_In, A in I.
  rewrite Q in I. destruct n; done.
Qed.

(** ** Directories that stay *)

Create HintDb keeps.

Lemma is_dir_same_fs w w' (d : Path) : fs w' = fs w -> is_dir w' d = is_dir w d.
Proof. intros E. unfold is_dir, node_at. now rewrite E. Qed.

Lemma is_dir_emit line w (d : Path) : is_dir (emit line w) d = is_dir w d.
Proof. reflexivity. Qed.

Lemma keeps_same_fs {A} (d : Path) (m : M A) :
  (forall w, fs (snd (m w)) = fs w) -> keeps_dir d m.
Proof. intros H w D. now rewrite (is_dir_same_fs _ _ _ (H w)). Qed.

Lemma keeps_mret {A} (d : Path) (a : A) : keeps_dir d (mret a).
Proof. now apply keeps_same_fs. Qed.

Lemma keeps_raise {A} (d : Path) e : keeps_dir d (raise e : M A).
Proof. now apply keeps_same_fs. Qed.

Lemma keeps_print (d : Path) line : keeps_dir d (print line).
Proof. now apply keeps_same_fs. Qed.

Lemma keeps_gets {A} (d : Path) (f : World -> A) : keeps_dir d (gets f).
Proof. now apply keeps_same_fs. Qed.

Lemma keeps_getcwd (d : Path) : keeps_dir d getcwd.
Proof. now apply keeps_same_fs. Qed.

Lemma keeps_chdir (d p : Path) : keeps_dir d (chdir p).
Proof.
  apply keeps_same_fs. intros w. unfold chdir.
  destruct (node_at w p) as [[]|]; reflexivity.
Qed.

Lemma keeps_open_rb (d p : Path) : keeps_dir d (open_rb p).
Proof.
  apply keeps_same_fs. intros w. unfold open_rb.
  destruct (node_at w p) as [[]|]; reflexivity.
Qed.

Lemma keeps_bind {A B} (d : Path) (m : M A) (k : A -> M B) :
  keeps_dir d m -> (forall a, keeps_dir d (k a)) -> keeps_dir d (m ≫= k).
Proof.
  intros Hm Hk w D. specialize (Hm w D). unfold mbind, M_bind.
  destruct (m w) as [[a|e] w1]; [|exact Hm]. now apply Hk.
Qed.

Lemma keeps_try_except {A} (d : Path) (body : M A) (handler : string -> M A) :
  keeps_dir d body -> (forall msg, keeps_dir d (handler msg)) ->
  keeps_dir d (try_except body handler).
Proof.
  intros Hb Hh w D. specialize (Hb w D). unfold try_except.
  destruct (body w) as [[a|[msg|msg]] w1]; try exact Hb. now apply Hh.
Qed.

(** Writing or moving a regular file over something that is not a
    directory removes no directory. *)
Lemma is_dir_put_file w (src dst d : Path) n :
  is_dir w d = true ->
  node_at w src <> Some Dir ->
  node_at w dst <> Some Dir ->
  is_dir (set_fs (<[dst := n]> (delete src (fs w))) w) d = true.
Proof.
  unfold is_dir. destruct d as [|c d]; [reflexivity|]. cbn [node_at set_fs fs].
  intros D S T.
  destruct (fs w !! (c :: d)) as [[]|] eqn:E; try discriminate.
  assert (dst <> c :: d).
  { intros ->. apply T. cbn [node_at]. exact E. }
  assert (src <> c :: d).
  { intros ->. apply S. cbn [node_at]. exact E. }
  rewrite lookup_insert_ne, lookup_delete_ne, E by assumption. reflexivity.
Qed.

Lemma keeps_write_file (d p : Path) data : keeps_dir d (write_file p data).
Proof.
  intros w D. unfold write_file.
  destruct (is_dir w (parent p)); [|exact D].
  destruct (node_at w p) as [[|old|]|] eqn:E; try exact D.
  - cbn [snd]. unfold is_dir in *. destruct d as [|c d]; [reflexivity|].
    cbn [node_at set_fs fs] in *.
    destruct (decide (p = c :: d)) as [->|N].
    + cbn [node_at] in E. rewrite E in D. discriminate.
    + now rewrite lookup_insert_ne.
  - cbn [snd]. unfold is_dir in *. destruct d as [|c d]; [reflexivity|].
    cbn [node_at set_fs fs] in *.
    destruct (decide (p = c :: d)) as [->|N].
    + cbn [node_at] in E. rewrite E in D. discriminate.
    + now rewrite lookup_insert_ne.
Qed.

Lemma keeps_mkdir (d p : Path) : keeps_dir d (mkdir p).
Proof.
  intros w D. destruct (mkdir p w) as [[[]|e] w1] eqn:E.
  - cbn [snd]. unfold is_dir in *.
    destruct (node_at w d) as [[]|] eqn:N; try discriminate.
    now rewrite (mkdir_keeps_node _ _ _ _ _ E N).
  - unfold mkdir in E. destruct (forallb _ _); [discriminate|].
    injection E as _ <-. exact D.
Qed.

#[local] Hint Resolve keeps_mret keeps_raise keeps_print keeps_gets
  keeps_getcwd keeps_chdir keeps_open_rb keeps_write_file keeps_mkdir : keeps.

Ltac keeps_step :=
  match goal with
  | |- keeps_dir _ (_ ≫= _) => apply keeps_bind; [|intros ?]
  | |- keeps_dir _ (if ?c then _ else _) => destruct c
  | |- keeps_dir _ (match ?x with _ => _ end) => destruct x
  | |- keeps_dir _ (try_except _ _) => apply keeps_try_except; [|intros ?]
  | |- keeps_dir _ _ => solve [auto with keeps]
  end.

Section ScriptFacts.

Context `{Ext : Externals}.

(** ** The two predicates on the paint output *)

Lemma is_valid_glb_eval (p : Path) w :
  is_valid_glb p w =
  (Ok match node_at w p with
      | Some (File data) => bool_decide (Py.read 4 data = Py.b "glTF")
      | _ => false
      end, w).
Proof.
  unfold is_valid_glb, try_except, mbind, M_bind, open_rb.
  destruct (node_at w p) as [[]|]; reflexivity.
Qed.

Lemma looks_like_obj_text_eval (p : Path) w :
  looks_like_obj_text p w =
  (Ok match node_at w p with
      | Some (File data) => obj_heuristic (Py.read 64 data)
      | _ => false
      end, w).
Proof.
  unfold looks_like_obj_text, try_except, mbind, M_bind, open_rb.
  destruct (node_at w p) as [[]|]; reflexivity.
Qed.


Lemma parent_join (d : Path) (s : string) : parent (join d s) = d.
Proof. apply removelast_last. Qed.

Lemma name_join (d : Path) (s : string) : name (join d s) = s.
Proof. apply last_last. Qed.

Lemma join_not_root (d : Path) (s : string) : join d s <> [].
Proof. unfold join. destruct d; discriminate. Qed.

Lemma node_at_join w (d : Path) (s : string) :
  node_at w (join d s) = fs w !! join d s.
Proof. unfold node_at. pose proof (join_not_root d s). destruct (join d s); congruence. Qed.

(** What the verification of lines 247-258 does, by what sits at the
    [.glb] path. *)
Lemma verify_output_eval (out img : Path) w :
  verify_output out img w =
  match node_at w (out_glb_maybe out img) with
  | None =>
      (Ok tt, emit "[WARN] output_mesh_path not found after paint. Check logs in this folder." w)
  | Some (File data) =>
      if bool_decide (Py.read 4 data = Py.b "glTF") then
        (Ok tt, emit ("[OK] Textured GLB exported: " +:+ name (out_glb_maybe out img)) w)
      else if obj_heuristic (Py.read 64 data) then
        (replace (out_glb_maybe out img) (out_obj out img);;
         print ("[FIX] Output was OBJ text, renamed to: " +:+ name (out_obj out img))) w
      else
        (Ok tt, emit ("[WARN] Output exists but is not valid GLB and doesn't look like OBJ: " +:+ name (out_glb_maybe out img)) w)
  | Some _ =>
      (Ok tt, emit ("[WARN] Output exists but is not valid GLB and doesn't look like OBJ: " +:+ name (out_glb_maybe out img)) w)
  end.
Proof.
  unfold verify_output.
  unfold mbind at 1. unfold M_bind, gets, path_exists.
  destruct (node_at w (out_glb_maybe out img)) as [n|] eqn:E; [|reflexivity].
  unfold mbind at 1. unfold M_bind. rewrite is_valid_glb_eval, E.
  destruct n as [|data|]; cbv beta iota.
  - unfold mbind at 1. unfold M_bind. rewrite looks_like_obj_text_eval, E. reflexivity.
  - destruct (bool_decide (Py.read 4 data = Py.b "glTF")); [reflexivity|].
    unfold mbind at 1. unfold M_bind. rewrite looks_like_obj_text_eval, E.
    cbv beta iota.
    destruct (obj_heuristic (Py.read 64 data)); reflexivity.
  - unfold mbind at 1. unfold M_bind. rewrite looks_like_obj_text_eval, E. reflexivity.
Qed.

(** ** One turn of the loop *)

Lemma chdir_ok (d : Path) w : is_dir w d = true -> chdir d w = (Ok tt, set_cwd d w).
Proof. unfold is_dir, chdir. destruct (node_at w d) as [[]|]; done. Qed.

Lemma job_after_enter args sp pp (out img : Path) w (old : Path) w0 :
  job_enter out img w = (Ok old, w0) ->
  job args sp pp out img w =
  try_finally (try_except (job_body args sp pp out img) (job_failed img))
              (chdir old) w0.
Proof. intros E. unfold job. now rewrite (bind_ok _ _ _ _ _ E). Qed.

Lemma job_caught args sp pp (out img : Path) w (old : Path) w0 msg w1 :
  job_enter out img w = (Ok old, w0) ->
  job_body args sp pp out img w0 = (Raise (Exception msg), w1) ->
  is_dir w1 old = true ->
  job args sp pp out img w =
  (Ok tt, set_cwd old (emit ("[ERROR] Failed on " +:+ name img +:+ ": " +:+ msg) w1)).
Proof.
  intros E B D. rewrite (job_after_enter _ _ _ _ _ _ _ _ E).
  unfold try_finally, try_except. rewrite B. unfold job_failed. rewrite print_eq.
  now rewrite chdir_ok.
Qed.

Lemma job_done args sp pp (out img : Path) w (old : Path) w0 w1 :
  job_enter out img w = (Ok old, w0) ->
  job_body args sp pp out img w0 = (Ok tt, w1) ->
  is_dir w1 old = true ->
  job args sp pp out img w = (Ok tt, set_cwd old w1).
Proof.
  intros E B D. rewrite (job_after_enter _ _ _ _ _ _ _ _ E).
  unfold try_finally, try_except. rewrite B. now rewrite chdir_ok.
Qed.

Lemma for_each_step {A} (f : A -> M unit) x rest w w' :
  f x w = (Ok tt, w') -> for_each (x :: rest) f w = for_each rest f w'.
Proof. intros E. simpl. now rewrite (bind_ok _ _ _ _ _ E). Qed.

Lemma replace_stdout (src dst : Path) w : stdout (snd (replace src dst w)) = stdout w.
Proof.
  unfold replace.
  repeat match goal with
         | |- context [match ?x with _ => _ end] => destruct x
         end; reflexivity.
Qed.

Lemma replace_file_ok (src dst : Path) w data :
  node_at w src = Some (File data) ->
  is_dir w (parent dst) = true ->
  is_dir w dst = false ->
  replace src dst w = (Ok tt, set_fs (<[dst := File data]> (delete src (fs w))) w).
Proof.
  intros S P D. unfold replace. rewrite S, P. unfold is_dir in D.
  destruct (node_at w dst) as [[]|]; done.
Qed.


(** ** Failure isolation *)


(** ** The binary signature *)

(** C4.  For a regular file with content [data], [is_valid_glb] answers
    exactly whether the first four bytes are [b"glTF"]; a file shorter than
    four bytes is never accepted; and the verification step of [main]
    reports the paint output as a textured GLB exactly in that case. *)
Theorem is_valid_glb_iff_signature (p out img : Path) w data :
  node_at w p = Some (File data) ->
  (is_valid_glb p w = (Ok true, w) <-> Py.read 4 data = Py.b "glTF") /\
  (is_valid_glb p w = (Ok false, w) <-> Py.read 4 data <> Py.b "glTF") /\
  ((length data < 4)%nat -> is_valid_glb p w = (Ok false, w)) /\
  (p = out_glb_maybe out img ->
   (verify_output out img w =
    (Ok tt, emit ("[OK] Textured GLB exported: " +:+ name p) w)
    <-> Py.read 4 data = Py.b "glTF")).
Proof.
  intros F. rewrite is_valid_glb_eval, F.
  repeat split.
  - intros E. injection E as E. now apply bool_decide_eq_true in E.
  - intros E. now rewrite bool_decide_true.
  - intros E. injection E as E. now apply bool_decide_eq_false in E.
  - intros E. now rewrite bool_decide_false.
  - intros L. rewrite bool_decide_false; [reflexivity|].
    intros E. apply (f_equal length) in E. unfold Py.read in E.
    rewrite length_take in E.
    change (length (Py.b "glTF")) with 4%nat in E. lia.
  - intros V. rewrite verify_output_eval in V. subst p. rewrite F in V.
    case_bool_decide as S; [exact S|exfalso].
    destruct (obj_heuristic (Py.read 64 data)).
    + pose proof (replace_stdout (out_glb_maybe out img) (out_obj out img) w) as R.
      unfold mbind, M_bind in V.
      destruct (replace (out_glb_maybe out img) (out_obj out img) w) as [[[]|e] w'];
        [|discriminate].
      rewrite print_eq in V. apply pair_equal_spec in V as [_ V]. simpl in R.
      apply emit_inj in V; [discriminate|exact R].
    + apply pair_equal_spec in V as [_ V].
      apply emit_inj in V; [discriminate|reflexivity].
  - intros S. subst p. rewrite verify_output_eval, F. now rewrite bool_decide_true.
Qed.

(** ** The text-mesh heuristic *)

(** C5, as amended.  Let the paint output be a regular file that fails the
    signature check.  If its first 64 bytes contain [mtllib], or, with
    leading whitespace stripped, begin with [#], [o ] or [v ], then
    [looks_like_obj_text] is true and, the job directory being there and
    the [.obj] path not being a directory, the file is renamed from the
    [.glb] path to the [.obj] path. *)
Theorem obj_text_in_head_is_renamed (out img : Path) w data :
  node_at w (out_glb_maybe out img) = Some (File data) ->
  Py.read 4 data <> Py.b "glTF" ->
  (Py.contains (Py.b "mtllib") (Py.read 64 data) = true \/
   Py.startswith (Py.b "#") (Py.lstrip (Py.read 64 data)) = true \/
   Py.startswith (Py.b "o ") (Py.lstrip (Py.read 64 data)) = true \/
   Py.startswith (Py.b "v ") (Py.lstrip (Py.read 64 data)) = true) ->
  is_dir w (per_item_dir out img) = true ->
  is_dir w (out_obj out img) = false ->
  looks_like_obj_text (out_glb_maybe out img) w = (Ok true, w) /\
  verify_output out img w =
  (Ok tt,
   emit ("[FIX] Output was OBJ text, renamed to: " +:+ name (out_obj out img))
        (set_fs (<[out_obj out img := File data]>
                   (delete (out_glb_maybe out img) (fs w))) w)).
Proof.
  intros F S H D O.
  assert (Hh : obj_heuristic (Py.read 64 data) = true).
  { unfold obj_heuristic.
    destruct H as [H|[H|[H|H]]]; rewrite H; rewrite ?orb_true_r; reflexivity. }
  split.
  - now rewrite looks_like_obj_text_eval, F, Hh.
  - rewrite verify_output_eval, F, bool_decide_false, Hh by exact S.
    erewrite bind_ok; [apply print_eq|].
    apply replace_file_ok; [exact F| |exact O].
    unfold out_obj. now rewrite parent_join.
Qed.

(** C6.  Let the job of [img] have entered its directory and its pipeline
    have run without raising, and let the paint output exist while neither
    predicate accepts it.  Then the verification prints the warning and
    changes nothing else: no file is renamed, removed or written.  The job
    ends normally and the loop goes on with the remaining images. *)
Theorem unrecognised_output_warns_and_batch_continues
    args sp pp (out img : Path) (rest : list Path) w (old : Path) w0 w1 :
  job_enter out img w = (Ok old, w0) ->
  job_pipeline args sp pp out img w0 = (Ok tt, w1) ->
  path_exists w1 (out_glb_maybe out img) = true ->
  is_valid_glb (out_glb_maybe out img) w1 = (Ok false, w1) ->
  looks_like_obj_text (out_glb_maybe out img) w1 = (Ok false, w1) ->
  is_dir w1 old = true ->
  let line := "[WARN] Output exists but is not valid GLB and doesn't look like OBJ: "
              +:+ name (out_glb_maybe out img) in
  let w2 := set_cwd old (emit line w1) in
  verify_output out img w1 = (Ok tt, emit line w1) /\
  fs w2 = fs w1 /\
  job args sp pp out img w = (Ok tt, w2) /\
  for_each (img :: rest) (job args sp pp out) w =
  for_each rest (job args sp pp out) w2.
Proof.
  intros E P X G O D line w2.
  assert (V : verify_output out img w1 = (Ok tt, emit line w1)).
  { rewrite verify_output_eval. rewrite is_valid_glb_eval in G.
    rewrite looks_like_obj_text_eval in O. unfold path_exists in X.
    destruct (node_at w1 (out_glb_maybe out img)) as [[|data|]|];
      [reflexivity| |reflexivity|discriminate].
    destruct (bool_decide (Py.read 4 data = Py.b "glTF")); [discriminate G|].
    destruct (obj_heuristic (Py.read 64 data)); [discriminate O|].
    reflexivity. }
  assert (J : job args sp pp out img w = (Ok tt, w2)).
  { eapply job_done; [exact E| |exact D].
    unfold job_body. erewrite bind_ok; [exact V|exact P]. }
  repeat split; [exact V|exact J|].
  now apply for_each_step.
Qed.

(** ** The predicates never raise *)

(** C10, as amended.  Both predicates always return, leave the world as it
    is, and answer [False] whenever the file cannot be opened and read.
    Evaluating them can therefore not make a job fail; when the
    verification step does raise, the output looked like OBJ text and it is
    the rename, [os.replace], that raised. *)
Theorem predicates_total_and_only_rename_raises (p out img : Path) w :
  (exists b, is_valid_glb p w = (Ok b, w)) /\
  (exists b, looks_like_obj_text p w = (Ok b, w)) /\
  (forall e w', open_rb p w = (Raise e, w') ->
     is_valid_glb p w = (Ok false, w) /\
     looks_like_obj_text p w = (Ok false, w)) /\
  (forall e w', verify_output out img w = (Raise e, w') ->
     looks_like_obj_text (out_glb_maybe out img) w = (Ok true, w) /\
     replace (out_glb_maybe out img) (out_obj out img) w = (Raise e, w')).
Proof.
  split; [rewrite is_valid_glb_eval; eauto|].
  split; [rewrite looks_like_obj_text_eval; eauto|].
  split.
  - intros e w' R. rewrite is_valid_glb_eval, looks_like_obj_text_eval.
    unfold open_rb in R. destruct (node_at w p) as [[]|]; done.
  - intros e w' V. rewrite verify_output_eval in V.
    rewrite looks_like_obj_text_eval.
    destruct (node_at w (out_glb_maybe out img)) as [[|data|]|]; try discriminate.
    destruct (bool_decide (Py.read 4 data = Py.b "glTF")); [discriminate|].
    destruct (obj_heuristic (Py.read 64 data)); [|discriminate].
    split; [reflexivity|].
    apply bind_inv_raise in V as [V|(a & w1 & _ & V)]; [exact V|discriminate].
Qed.


(** ** Alpha detection and background removal *)

Lemma Image_open_eval (p : Path) w :
  Image_open p w =
  match node_at w p with
  | Some (File data) =>
      match pil_identify data with
      | inl msg => (Raise (Exception msg), w)
      | inr im => (Ok im, w)
      end
  | Some Dir => (Raise (Exception "IsADirectoryError"), w)
  | Some NoAccess => (Raise (Exception "PermissionError"), w)
  | None => (Raise (Exception "FileNotFoundError"), w)
  end.
Proof.
  unfold Image_open, mbind, M_bind, open_rb.
  destruct (node_at w p) as [[|data|]|]; try reflexivity.
  destruct (pil_identify data); reflexivity.
Qed.

Lemma has_alpha_png_eval (p : Path) w :
  has_alpha_png p w =
  (Ok (bool_decide (Py.lower (suffix p) = ".png") &&
       match node_at w p with
       | Some (File data) =>
           match pil_identify data with
           | inr im => bool_decide (mode im ∈ ["RGBA"; "LA"])
                       || bool_decide ("transparency" ∈ info im)
           | inl _ => false
           end
       | _ => false
       end), w).
Proof.
  unfold has_alpha_png.
  destruct (decide (Py.lower (suffix p) = ".png")) as [E|E].
  - rewrite bool_decide_false by (intros N; now apply N).
    rewrite (bool_decide_true _ E). cbn [andb].
    unfold try_except. unfold mbind, M_bind. rewrite Image_open_eval.
    destruct (node_at w p) as [[|data|]|]; try reflexivity.
    destruct (pil_identify data) as [msg|im]; [reflexivity|].
    destruct (bool_decide (mode im ∈ ["RGBA"; "LA"])); reflexivity.
  - rewrite (bool_decide_true _ E), (bool_decide_false _ E). reflexivity.
Qed.

(** An image in whose mode and [info] the detection finds no alpha is
    reported as having none, whatever the file is called. *)
Lemma has_alpha_png_no_alpha (p : Path) w data im :
  node_at w p = Some (File data) ->
  pil_identify data = inr im ->
  mode im ∉ ["RGBA"; "LA"] ->
  "transparency" ∉ info im ->
  has_alpha_png p w = (Ok false, w).
Proof.
  intros F I Hm Ht. rewrite has_alpha_png_eval, F, I.
  rewrite (bool_decide_false _ Hm), (bool_decide_false _ Ht).
  now rewrite andb_false_r.
Qed.

Lemma remove_background_forced (src dst : Path) w :
  remove_background_to_png src dst true w = run_removal src dst w.
Proof. reflexivity. Qed.

Lemma remove_background_unforced (src dst : Path) w b :
  has_alpha_png src w = (Ok b, w) ->
  remove_background_to_png src dst false w =
  if b then (Ok src, w) else run_removal src dst w.
Proof.
  intros E. unfold remove_background_to_png. cbn [negb].
  rewrite (bind_ok _ _ _ _ _ E). now destruct b.
Qed.



Lemma mode_convert (m : string) (im : Image) : mode (convert m im) = m.
Proof. unfold convert. destruct (pil_convert m im). reflexivity. Qed.

(** C3, as amended.  A source whose file suffix is [.png] in any letter
    case and whose image already carries an alpha channel (RGBA or LA mode,
    or palette mode with a transparency entry) comes back as it is from an
    unforced background removal: the result is the source path and the
    world, the destination included, is untouched. *)
Theorem png_with_alpha_is_returned_unchanged (src dst : Path) w data im :
  Py.lower (suffix src) = ".png" ->
  node_at w src = Some (File data) ->
  pil_identify data = inr im ->
  spec_carries_alpha im ->
  has_alpha_png src w = (Ok true, w) /\
  remove_background_to_png src dst false w = (Ok src, w).
Proof.
  intros S F I A.
  assert (H : has_alpha_png src w = (Ok true, w)).
  { rewrite has_alpha_png_eval, F, I, (bool_decide_true _ S). cbn [andb].
    destruct A as [A|[A|[_ A]]].
    - rewrite bool_decide_true; [reflexivity|]. rewrite A. set_solver.
    - rewrite bool_decide_true; [reflexivity|]. rewrite A. set_solver.
    - rewrite (bool_decide_true _ A). now rewrite orb_true_r. }
  split; [exact H|].
  now rewrite (remove_background_unforced _ _ _ _ H).
Qed.




(** ** Nothing to do *)

Lemma main_after_setup (SCRIPT_DIR : Path) args w w1 :
  (mkdir (resolve (join SCRIPT_DIR "input"));;
   mkdir (resolve (join SCRIPT_DIR "output"))) w = (Ok tt, w1) ->
  main SCRIPT_DIR args w =
  (selected ← select_images args (resolve (join SCRIPT_DIR "input"));
   match selected with
   | None => mret tt
   | Some [] =>
       print ("[INFO] No images found in: "
              +:+ to_str (resolve (join SCRIPT_DIR "input")));;
       print "[INFO] Put one or more images into ./input and run again, or use --path <file>."
   | Some images =>
       run_batch args SCRIPT_DIR (resolve (join SCRIPT_DIR "output")) images
   end) w1.
Proof.
  intros K. apply bind_inv_ok in K as ([] & wa & K1 & K2).
  unfold main. rewrite (bind_ok _ _ _ _ _ K1). now rewrite (bind_ok _ _ _ _ _ K2).
Qed.



(** ** The working directory *)


Lemma keeps_Image_open (d p : Path) : keeps_dir d (Image_open p).
Proof. unfold Image_open. repeat keeps_step. Qed.

Lemma keeps_has_alpha_png (d p : Path) : keeps_dir d (has_alpha_png p).
Proof. apply keeps_same_fs. intros w. now rewrite has_alpha_png_eval. Qed.

Lemma keeps_is_valid_glb (d p : Path) : keeps_dir d (is_valid_glb p).
Proof. apply keeps_same_fs. intros w. now rewrite is_valid_glb_eval. Qed.

Lemma keeps_looks_like_obj_text (d p : Path) : keeps_dir d (looks_like_obj_text p).
Proof. apply keeps_same_fs. intros w. now rewrite looks_like_obj_text_eval. Qed.

Lemma keeps_Image_save (d p : Path) im : keeps_dir d (Image_save im p).
Proof. unfold Image_save. repeat keeps_step. Qed.

(** The rename of line 253 moves a regular file: [looks_like_obj_text] has
    read it. *)
Lemma keeps_verify_output (d out img : Path) : keeps_dir d (verify_output out img).
Proof.
  intros w D. rewrite verify_output_eval.
  destruct (node_at w (out_glb_maybe out img)) as [[|data|]|] eqn:E; try exact D.
  destruct (bool_decide _); [exact D|].
  destruct (obj_heuristic _); [|exact D].
  unfold mbind, M_bind, replace. rewrite E.
  destruct (is_dir w (parent (out_obj out img))); [|exact D].
  destruct (node_at w (out_obj out img)) as [[|old|]|] eqn:O; try exact D;
    rewrite print_eq; cbn [snd]; rewrite is_dir_emit;
    apply is_dir_put_file; congruence.
Qed.

#[local] Hint Resolve keeps_Image_open keeps_has_alpha_png keeps_is_valid_glb
  keeps_looks_like_obj_text keeps_Image_save keeps_verify_output : keeps.

Section Collaborators.

(** The collaborators called inside a job leave the directory [d] in
    place. *)
Variable d : Path.
Variables (sp : ShapePipeline) (pp : PaintPipeline).
Hypothesis keeps_rembg : forall im, keeps_dir d (BackgroundRemover im).
Hypothesis keeps_shapegen : forall im, keeps_dir d (shapegen sp im).
Hypothesis keeps_export : forall mesh p, keeps_dir d (mesh_export mesh p).
Hypothesis keeps_paint : forall a b c, keeps_dir d (paint pp a b c).

#[local] Hint Resolve keeps_rembg keeps_shapegen keeps_export keeps_paint : keeps.

Lemma keeps_remove_background (src dst : Path) force :
  keeps_dir d (remove_background_to_png src dst force).
Proof.
  unfold remove_background_to_png, run_removal. repeat keeps_step.
Qed.

Lemma keeps_job_body args (out img : Path) :
  keeps_dir d (job_body args sp pp out img).
Proof.
  pose proof keeps_remove_background.
  unfold job_body, job_pipeline, job_input, job_models. repeat keeps_step.
Qed.

Lemma keeps_job_try args (out img : Path) :
  keeps_dir d (try_except (job_body args sp pp out img) (job_failed img)).
Proof.
  apply keeps_try_except; [apply keeps_job_body|].
  intros msg. unfold job_failed. auto with keeps.
Qed.

End Collaborators.

(** Entering a job: the saved directory is the current one, nothing is
    removed, and a failed entry leaves the process where it was. *)
Lemma job_enter_spec (out img : Path) w r w0 :
  job_enter out img w = (r, w0) ->
  match r with
  | Ok old => old = cwd w /\ cwd w0 = per_item_dir out img /\
              (forall d, is_dir w d = true -> is_dir w0 d = true)
  | Raise _ => cwd w0 = cwd w
  end.
Proof.
  unfold job_enter. unfold mbind at 1. unfold M_bind.
  destruct (mkdir (per_item_dir out img) w) as [[[]|e] wa] eqn:K.
  - assert (C : cwd wa = cwd w).
    { unfold mkdir in K. destruct (forallb _ _); [|discriminate].
      now injection K as <-. }
    unfold mbind, M_bind, print, getcwd, chdir.
    set (wb := emit _ (emit _ (emit _ wa))).
    destruct (node_at wb (per_item_dir out img)) as [[]|] eqn:N;
      intros E; injection E as <- <-; try exact C.
    repeat split; [exact C|].
    intros d D. apply (keeps_mkdir d (per_item_dir out img) w) in D.
    rewrite K in D. exact D.
  - intros E. injection E as <- <-.
    unfold mkdir in K. destruct (forallb _ _); [discriminate|].
    now injection K as _ <-.
Qed.

(** C2.  Whatever a job does and however it ends (its body returning, an
    [Exception] caught by the handler, a system-exiting exception passing
    through, or the job not even getting into its directory), the working
    directory afterwards is the one from before: it is read on entry,
    before the change into the job's directory, and [finally] changes
    back to it.  The collaborators are assumed not to remove that
    directory. *)
Theorem job_restores_working_directory
    args (sp : ShapePipeline) (pp : PaintPipeline) (out img : Path) w :
  is_dir w (cwd w) = true ->
  (forall im, keeps_dir (cwd w) (BackgroundRemover im)) ->
  (forall im, keeps_dir (cwd w) (shapegen sp im)) ->
  (forall mesh p, keeps_dir (cwd w) (mesh_export mesh p)) ->
  (forall a b c, keeps_dir (cwd w) (paint pp a b c)) ->
  (forall old w0, job_enter out img w = (Ok old, w0) ->
     old = cwd w /\ cwd w0 = per_item_dir out img) /\
  cwd (snd (job args sp pp out img w)) = cwd w.
Proof.
  intros D Hr Hs He Hp. split.
  - intros old w0 E. apply job_enter_spec in E. tauto.
  - unfold job. unfold mbind, M_bind.
    destruct (job_enter out img w) as [[old|e] w0] eqn:E;
      apply job_enter_spec in E; [|exact E].
    destruct E as (-> & _ & K).
    pose proof (keeps_job_try (cwd w) sp pp Hr Hs He Hp args out img w0 (K _ D)) as T.
    unfold try_finally.
    destruct (try_except _ _ w0) as [r w1]. cbn [snd] in T.
    rewrite (chdir_ok _ _ T). reflexivity.
Qed.

End ScriptFacts.

(** * The theorems at work on the small installation *)

Import Demo.

Lemma demo_rembg_keeps (d : Path) im : keeps_dir d (rembg im).
Proof. unfold rembg. repeat keeps_step. Qed.

Lemma demo_paint_fails_keeps (d out : Path) : keeps_dir d (paint_fails out).
Proof. unfold paint_fails. auto with keeps. Qed.


(** C2 at work: the paint stage fails, and the process is back in
    [/home]. *)
Lemma failed_job_returns_home :
  is_dir two_images (cwd two_images) = true /\
  cwd (snd (job (Ext := externals paint_fails) with_remove_bg tt tt
                output_dir cat two_images)) = ["home"].
Proof.
  split; [reflexivity|].
  apply (job_restores_working_directory (Ext := externals paint_fails)
           with_remove_bg tt tt output_dir cat two_images).
  - reflexivity.
  - intros im. exact (demo_rembg_keeps _ im).
  - intros im. exact (keeps_mret _ [tt]).
  - intros mesh p. exact (keeps_write_file _ (of_str p) _).
  - intros a b c. exact (demo_paint_fails_keeps _ (of_str c)).
Defined.

(** C3 as stated fails: [logo.webp] is an RGBA image, and an unforced
    removal still runs the remover, writes [logo_bgremoved.png] and returns
    that path instead of the source. *)
Lemma webp_with_alpha_is_not_returned_unchanged :
  node_at webp_with_alpha logo_webp = Some (File (Py.b "RGBA logo")) /\
  identify (Py.b "RGBA logo") = inr (mkImage "RGBA" [] (Py.b "RGBA logo")) /\
  spec_carries_alpha (mkImage "RGBA" [] (Py.b "RGBA logo")) /\
  node_at webp_with_alpha (bg_png output_dir logo_webp) = None /\
  fst (remove_background_to_png (Ext := externals paint_idle) logo_webp
         (bg_png output_dir logo_webp) false webp_with_alpha)
  = Ok (bg_png output_dir logo_webp) /\
  node_at (snd (remove_background_to_png (Ext := externals paint_idle) logo_webp
                  (bg_png output_dir logo_webp) false webp_with_alpha))
          (bg_png output_dir logo_webp)
  = Some (File (Py.b "RGBA:cut:RGBA logo")) /\
  remove_background_to_png (Ext := externals paint_idle) logo_webp
    (bg_png output_dir logo_webp) false webp_with_alpha
  <> (Ok logo_webp, webp_with_alpha).
Proof.
  split; [vm_compute; reflexivity|].
  split; [vm_compute; reflexivity|].
  split; [left; reflexivity|].
  split; [vm_compute; reflexivity|].
  split; [vm_compute; reflexivity|].
  split; [vm_compute; reflexivity|].
  intros H. apply (f_equal fst) in H. vm_compute in H. discriminate H.
Qed.

(** C3 as amended at work: the same image under the name [logo.png]. *)
Lemma logo_png_is_used_directly :
  Py.lower (suffix logo_png) = ".png" /\
  remove_background_to_png (Ext := externals paint_idle) logo_png
    (bg_png output_dir logo_png) false png_with_alpha
  = (Ok logo_png, png_with_alpha).
Proof.
  split; [reflexivity|].
  apply (png_with_alpha_is_returned_unchanged (Ext := externals paint_idle)
           logo_png (bg_png output_dir logo_png) png_with_alpha
           (Py.b "RGBA logo") (mkImage "RGBA" [] (Py.b "RGBA logo"))).
  - reflexivity.
  - reflexivity.
  - reflexivity.
  - left. reflexivity.
Defined.

(** C4 at work: a zip archive under the [.glb] name is not accepted. *)
Lemma zip_archive_is_not_glb :
  node_at zip_output (out_glb_maybe output_dir cat)
  = Some (File (Py.b "PK zip archive")) /\
  is_valid_glb (out_glb_maybe output_dir cat) zip_output = (Ok false, zip_output).
Proof.
  split; [reflexivity|].
  apply (proj1 (proj2 (is_valid_glb_iff_signature
                         (out_glb_maybe output_dir cat) output_dir cat zip_output
                         (Py.b "PK zip archive") eq_refl))).
  intros H. vm_compute in H. discriminate H.
Defined.

(** C5 as stated fails: the output is OBJ text and contains [mtllib], but
    past the 64 bytes the heuristic reads; it is not renamed. *)
Lemma mtllib_past_the_head_is_not_renamed :
  node_at late_mtllib_output (out_glb_maybe output_dir cat)
  = Some (File late_mtllib) /\
  Py.read 4 late_mtllib <> Py.b "glTF" /\
  Py.contains (Py.b "mtllib") late_mtllib = true /\
  looks_like_obj_text (out_glb_maybe output_dir cat) late_mtllib_output
  = (Ok false, late_mtllib_output) /\
  verify_output output_dir cat late_mtllib_output
  = (Ok tt,
     emit "[WARN] Output exists but is not valid GLB and doesn't look like OBJ: cat_textured.glb"
          late_mtllib_output).
Proof.
  split; [vm_compute; reflexivity|].
  split; [intros H; vm_compute in H; discriminate H|].
  split; [vm_compute; reflexivity|].
  split; vm_compute; reflexivity.
Qed.

(** C5 as amended at work: OBJ text that starts, after two blanks, with a
    comment. *)
Lemma commented_obj_text_run :
  Py.startswith (Py.b "#") (Py.lstrip (Py.read 64 (Py.b "  # Blender OBJ")))
  = true /\
  verify_output output_dir cat obj_output
  = (Ok tt,
     emit ("[FIX] Output was OBJ text, renamed to: "
           +:+ name (out_obj output_dir cat))
          (set_fs (<[out_obj output_dir cat := File (Py.b "  # Blender OBJ")]>
                     (delete (out_glb_maybe output_dir cat) (fs obj_output)))
                  obj_output)).
Proof.
  split; [reflexivity|].
  apply (obj_text_in_head_is_renamed
           output_dir cat obj_output (Py.b "  # Blender OBJ")).
  - reflexivity.
  - intros H. vm_compute in H. discriminate H.
  - right. left. reflexivity.
  - reflexivity.
  - reflexivity.
Defined.

(** C6 at work: the paint stage writes a zip archive; the job warns, keeps
    the file and the loop turns to [dog.jpg]. *)
Lemma zip_archive_from_paint_run :
  node_at (painted (paint_writes (Py.b "PK zip archive")) plain cat two_images)
          (out_glb_maybe output_dir cat)
  = Some (File (Py.b "PK zip archive")) /\
  for_each [cat; dog]
    (job (Ext := externals (paint_writes (Py.b "PK zip archive")))
         plain tt tt output_dir) two_images =
  for_each [dog]
    (job (Ext := externals (paint_writes (Py.b "PK zip archive")))
         plain tt tt output_dir)
    (set_cwd ["home"]
       (emit "[WARN] Output exists but is not valid GLB and doesn't look like OBJ: cat_textured.glb"
             (painted (paint_writes (Py.b "PK zip archive")) plain cat two_images))).
Proof.
  split; [vm_compute; reflexivity|].
  apply (unrecognised_output_warns_and_batch_continues
           (Ext := externals (paint_writes (Py.b "PK zip archive")))
           plain tt tt output_dir cat [dog] two_images ["home"]
           (entered cat two_images)
           (painted (paint_writes (Py.b "PK zip archive")) plain cat two_images));
    vm_compute; reflexivity.
Defined.




(** C10 as stated fails: the paint stage writes OBJ text, a directory sits
    at the [.obj] path, the rename raises and the job is reported as
    failed, all stages before the verification having succeeded. *)
Lemma rename_onto_directory_fails_the_job :
  job_pipeline (Ext := externals (paint_writes (Py.b "# OBJ text")))
    plain tt tt output_dir cat (entered cat obj_is_a_directory)
  = (Ok tt, painted (paint_writes (Py.b "# OBJ text")) plain cat obj_is_a_directory) /\
  is_valid_glb (out_glb_maybe output_dir cat)
    (painted (paint_writes (Py.b "# OBJ text")) plain cat obj_is_a_directory)
  = (Ok false, painted (paint_writes (Py.b "# OBJ text")) plain cat obj_is_a_directory) /\
  looks_like_obj_text (out_glb_maybe output_dir cat)
    (painted (paint_writes (Py.b "# OBJ text")) plain cat obj_is_a_directory)
  = (Ok true, painted (paint_writes (Py.b "# OBJ text")) plain cat obj_is_a_directory) /\
  verify_output output_dir cat
    (painted (paint_writes (Py.b "# OBJ text")) plain cat obj_is_a_directory)
  = (Raise (Exception "IsADirectoryError"),
     painted (paint_writes (Py.b "# OBJ text")) plain cat obj_is_a_directory) /\
  job (Ext := externals (paint_writes (Py.b "# OBJ text")))
      plain tt tt output_dir cat obj_is_a_directory
  = (Ok tt,
     set_cwd ["home"]
       (emit "[ERROR] Failed on cat.png: IsADirectoryError"
          (painted (paint_writes (Py.b "# OBJ text")) plain cat obj_is_a_directory))).
Proof.
  split; [vm_compute; reflexivity|].
  split; [vm_compute; reflexivity|].
  split; [vm_compute; reflexivity|].
  split; vm_compute; reflexivity.
Qed.

(** C10 as amended at work: a path that names nothing is rejected by both
    predicates, and the exception of the run above is the rename's. *)
Lemma missing_file_and_failed_rename_run :
  (is_valid_glb ["nowhere"] two_images = (Ok false, two_images) /\
   looks_like_obj_text ["nowhere"] two_images = (Ok false, two_images)) /\
  replace (out_glb_maybe output_dir cat) (out_obj output_dir cat)
    (painted (paint_writes (Py.b "# OBJ text")) plain cat obj_is_a_directory)
  = (Raise (Exception "IsADirectoryError"),
     painted (paint_writes (Py.b "# OBJ text")) plain cat obj_is_a_directory).
Proof.
  split.
  - apply (proj1 (proj2 (proj2 (predicates_total_and_only_rename_raises
             ["nowhere"] output_dir cat two_images)))
             (Exception "FileNotFoundError") two_images).
    reflexivity.
  - apply (proj2 (proj2 (proj2 (predicates_total_and_only_rename_raises
             ["nowhere"] output_dir cat
             (painted (paint_writes (Py.b "# OBJ text")) plain cat
                      obj_is_a_directory))))
             (Exception "IsADirectoryError")
             (painted (paint_writes (Py.b "# OBJ text")) plain cat
                      obj_is_a_directory)).
    vm_compute. reflexivity.
Defined.

(** * Further facts about the script *)

(** ** The order of paths *)

Lemma ascii_compare_refl (a : ascii) : Ascii.compare a a = Eq.
Proof. unfold Ascii.compare. apply N.compare_refl. Qed.

Lemma ascii_compare_lt_trans (a b c : ascii) :
  Ascii.compare a b = Lt -> Ascii.compare b c = Lt -> Ascii.compare a c = Lt.
Proof.
  unfold Ascii.compare. rewrite !N.compare_lt_iff. apply N.lt_trans.
Qed.

Lemma string_compare_refl (s : string) : String.compare s s = Eq.
Proof.
  induction s as [|a s IH]; [reflexivity|].
  cbn [String.compare]. now rewrite ascii_compare_refl.
Qed.

Lemma string_compare_lt_trans (s t u : string) :
  String.compare s t = Lt -> String.compare t u = Lt -> String.compare s u = Lt.
Proof.
  revert t u. induction s as [|a s IH]; intros [|b t] [|c u]; cbn [String.compare];
    try discriminate; try reflexivity.
  destruct (Ascii.compare a b) eqn:AB; try discriminate;
    destruct (Ascii.compare b c) eqn:BC; try discriminate; intros H1 H2.
  - apply Ascii.compare_eq_iff in AB, BC. subst. rewrite ascii_compare_refl. eauto.
  - apply Ascii.compare_eq_iff in AB. subst. now rewrite BC.
  - apply Ascii.compare_eq_iff in BC. subst. now rewrite AB.
  - now rewrite (ascii_compare_lt_trans _ _ _ AB BC).
Qed.

Lemma string_compare_gt_lt (s t : string) :
  String.compare s t = Gt -> String.compare t s = Lt.
Proof. intros H. rewrite String.compare_antisym, H. reflexivity. Qed.

#[local] Instance path_leb_total : Total (fun p q : Path => Is_true (path_leb p q)).
Proof.
  intros p. induction p as [|a p IH]; intros [|c q]; cbn [path_leb].
  - left. exact I.
  - left. exact I.
  - right. exact I.
  - destruct (String.compare a c) eqn:E.
    + apply String.compare_eq_iff in E. subst. rewrite string_compare_refl. apply IH.
    + left. exact I.
    + right. now rewrite (string_compare_gt_lt _ _ E).
Qed.

Lemma path_leb_trans_bool (p q r : Path) :
  path_leb p q = true -> path_leb q r = true -> path_leb p r = true.
Proof.
  revert q r. induction p as [|a p IH]; intros [|b q] [|c r]; cbn [path_leb];
    try reflexivity; try discriminate.
  destruct (String.compare a b) eqn:AB; try discriminate;
    destruct (String.compare b c) eqn:BC; try discriminate; intros H1 H2.
  - apply String.compare_eq_iff in AB, BC. subst. rewrite string_compare_refl. eauto.
  - apply String.compare_eq_iff in AB. subst. now rewrite BC.
  - apply String.compare_eq_iff in BC. subst. now rewrite AB.
  - now rewrite (string_compare_lt_trans _ _ _ AB BC).
Qed.

#[local] Instance path_leb_trans : Transitive (fun p q : Path => Is_true (path_leb p q)).
Proof.
  intros p q r H1 H2. apply Is_true_true in H1, H2. apply Is_true_true.
  eapply path_leb_trans_bool; eassumption.
Qed.

(** ** The scan of the input directory *)

Lemma elem_of_children w (d k : Path) :
  k ∈ children w d <-> k <> [] /\ parent k = d /\ is_Some (fs w !! k).
Proof.
  unfold children. rewrite list_elem_of_In, filter_In, <- list_elem_of_In.
  rewrite bool_decide_eq_true.
  change (List.map fst (map_to_list (fs w))) with ((map_to_list (fs w)).*1).
  rewrite list_elem_of_fmap. split.
  - intros [((k' & n) & -> & H) [N P]]. apply elem_of_map_to_list in H.
    cbn [fst] in *. eauto.
  - intros (N & P & n & H). split; [|now split].
    exists (k, n). split; [reflexivity|]. now apply elem_of_map_to_list.
Qed.

Lemma NoDup_children w (d : Path) : NoDup (children w d).
Proof.
  unfold children. apply NoDup_ListNoDup, List.NoDup_filter, NoDup_ListNoDup.
  apply (NoDup_fst_map_to_list (fs w)).
Qed.

Lemma StronglySorted_list_filter {A} (R : relation A) (f : A -> bool) (l : list A) :
  StronglySorted R l -> StronglySorted R (List.filter f l).
Proof.
  induction 1 as [|a l S IH F]; cbn [List.filter]; [constructor|].
  destruct (f a); [|exact IH]. constructor; [exact IH|].
  rewrite Forall_forall in F |- *. intros x Hx.
  apply list_elem_of_In, filter_In in Hx as [Hx _]. now apply F, list_elem_of_In.
Qed.

Lemma collect_images_inv (d : Path) w l w' :
  collect_images d w = (Ok l, w') ->
  w' = w /\ is_dir w d = true /\
  l = List.filter
        (fun p => is_file w p && bool_decide (Py.lower (suffix p) ∈ exts))
        (sorted (children w d)).
Proof.
  unfold collect_images, mbind, M_bind, iterdir, gets, is_dir.
  destruct (node_at w d) as [[]|]; try discriminate.
  intros E. injection E as <- <-. auto.
Qed.


(** X1.  When [collect_images] returns, it has changed nothing, and its
    result holds exactly the regular files directly inside the directory
    whose lower-cased suffix is one of the seven extensions: nothing from
    sub-directories, no directory, and [CAT.PNG] as well as [cat.png]. *)
Theorem collect_images_characterised (d : Path) w l w' :
  collect_images d w = (Ok l, w') ->
  w' = w /\
  forall p : Path,
    p ∈ l <->
    p <> [] /\ parent p = d /\ is_file w p = true /\
    Py.lower (suffix p) ∈ exts.
Proof.
  intros E. apply collect_images_inv in E as (-> & _ & ->).
  split; [reflexivity|]. intros p.
  rewrite list_elem_of_In, filter_In, <- list_elem_of_In.
  unfold sorted. rewrite merge_sort_Permutation, elem_of_children.
  rewrite andb_true_iff, bool_decide_eq_true. split.
  - intros [(N & P & _) [F X]]. auto.
  - intros (N & P & F & X). repeat split; try assumption.
    unfold is_file, node_at in F. destruct p; [contradiction|].
    destruct (fs w !! (s :: p)); [eauto|discriminate].
Qed.

(** X2.  The images come back in the order of [sorted] on paths, each one
    once. *)
Theorem collect_images_sorted_nodup (d : Path) w l w' :
  collect_images d w = (Ok l, w') ->
  StronglySorted (fun p q : Path => Is_true (path_leb p q)) l /\ NoDup l.
Proof.
  intros E. apply collect_images_inv in E as (-> & _ & ->). split.
  - apply StronglySorted_list_filter. unfold sorted.
    apply StronglySorted_merge_sort; apply _.
  - apply NoDup_ListNoDup, List.NoDup_filter, NoDup_ListNoDup.
    unfold sorted. rewrite merge_sort_Permutation. apply NoDup_children.
Qed.


Section MoreFacts.

Context `{Ext : Externals}.

(** ** Which images [main] works on *)


(** X4.  With a non-empty [--path] that names a regular file, the batch is
    that one file: whatever directory would have been scanned is not looked
    at, and [main] runs the batch on the single path. *)
Theorem single_file_mode_runs_one_job (SCRIPT_DIR : Path) args w w1 s :
  (mkdir (resolve (join SCRIPT_DIR "input"));;
   mkdir (resolve (join SCRIPT_DIR "output"))) w = (Ok tt, w1) ->
  path args = Some s ->
  s <> "" ->
  is_file w1 (user_path s (cwd w1)) = true ->
  (forall input_dir : Path,
     select_images args input_dir w1 = (Ok (Some [user_path s (cwd w1)]), w1)) /\
  main SCRIPT_DIR args w =
  run_batch args SCRIPT_DIR (resolve (join SCRIPT_DIR "output"))
            [user_path s (cwd w1)] w1.
Proof.
  intros K P N F.
  assert (S : forall input_dir : Path,
             select_images args input_dir w1
             = (Ok (Some [user_path s (cwd w1)]), w1)).
  { intros input_dir. unfold select_images. rewrite P, (bool_decide_true _ N).
    unfold mbind at 1. unfold M_bind, getcwd.
    unfold mbind at 1. unfold M_bind, gets. rewrite F.
    unfold is_file, path_exists in *.
    destruct (node_at w1 (user_path s (cwd w1))); [reflexivity|discriminate]. }
  split; [exact S|].
  rewrite (main_after_setup _ _ _ _ K). now rewrite (bind_ok _ _ _ _ _ (S _)).
Qed.

(** X5.  The two pipelines are built before the first job and their
    construction is not guarded: when either constructor raises, whatever
    the exception, [main] raises it too and stops in the world the
    constructor left, no job having been entered. *)
Theorem pipeline_construction_failure_is_fatal
    (SCRIPT_DIR : Path) args w w1 (img : Path) (rest : list Path) w2 :
  (mkdir (resolve (join SCRIPT_DIR "input"));;
   mkdir (resolve (join SCRIPT_DIR "output"))) w = (Ok tt, w1) ->
  select_images args (resolve (join SCRIPT_DIR "input")) w1
  = (Ok (Some (img :: rest)), w2) ->
  (forall e w3,
     from_pretrained MODEL_PATH
       (emit ("[INFO] Loading shape model from: " +:+ MODEL_PATH) w2)
     = (Raise e, w3) ->
     main SCRIPT_DIR args w = (Raise e, w3)) /\
  (forall sp w3 e w4,
     from_pretrained MODEL_PATH
       (emit ("[INFO] Loading shape model from: " +:+ MODEL_PATH) w2)
     = (Ok sp, w3) ->
     Hunyuan3DPaintPipeline
       (mkPaintConfig 8 512
          (to_str (resolve (join (join (resolve (join SCRIPT_DIR "hy3dpaint"))
                                       "ckpt") "RealESRGAN_x4plus.pth")))
          (to_str (resolve (join (join (resolve (join SCRIPT_DIR "hy3dpaint"))
                                       "cfgs") "hunyuan-paint-pbr.yaml")))
          (to_str (resolve (join (resolve (join SCRIPT_DIR "hy3dpaint"))
                                 "hunyuanpaintpbr"))))
       (emit "[INFO] Loading paint pipeline..." w3)
     = (Raise e, w4) ->
     main SCRIPT_DIR args w = (Raise e, w4)).
Proof.
  intros K S. rewrite (main_after_setup _ _ _ _ K), (bind_ok _ _ _ _ _ S).
  unfold run_batch. split.
  - intros e w3 L. unfold mbind at 1. unfold M_bind. rewrite print_eq.
    now rewrite (bind_raise _ _ _ _ _ L).
  - intros sp w3 e w4 L P. unfold mbind at 1. unfold M_bind. rewrite print_eq.
    rewrite (bind_ok _ _ _ _ _ L). cbv zeta.
    unfold mbind at 1. unfold M_bind. rewrite print_eq.
    now rewrite (bind_raise _ _ _ _ _ P).
Qed.

(** ** What the verification step does and leaves alone *)

Lemma out_glb_maybe_ne_out_obj (out img : Path) :
  out_glb_maybe out img <> out_obj out img.
Proof.
  unfold out_glb_maybe, out_obj, join. intros E.
  apply app_inv_head in E. injection E as E.
  apply String.app_inj in E. discriminate E.
Qed.

Lemma node_at_out_glb_maybe w (out img : Path) :
  node_at w (out_glb_maybe out img) = fs w !! out_glb_maybe out img.
Proof. apply node_at_join. Qed.

Lemma node_at_out_obj w (out img : Path) :
  node_at w (out_obj out img) = fs w !! out_obj out img.
Proof. apply node_at_join. Qed.

(** X6.  Let the job of [img] have entered its directory and its pipeline
    have run without raising, and let nothing be at the [.glb] path
    afterwards.  Then the verification only prints that the output was not
    found; the job ends normally and the loop goes on with the remaining
    images. *)
Theorem missing_output_warns_and_batch_continues
    args sp pp (out img : Path) (rest : list Path) w (old : Path) w0 w1 :
  job_enter out img w = (Ok old, w0) ->
  job_pipeline args sp pp out img w0 = (Ok tt, w1) ->
  path_exists w1 (out_glb_maybe out img) = false ->
  is_dir w1 old = true ->
  let line := "[WARN] output_mesh_path not found after paint. Check logs in this folder." in
  let w2 := set_cwd old (emit line w1) in
  verify_output out img w1 = (Ok tt, emit line w1) /\
  job args sp pp out img w = (Ok tt, w2) /\
  for_each (img :: rest) (job args sp pp out) w =
  for_each rest (job args sp pp out) w2.
Proof.
  intros E P X D line w2.
  assert (V : verify_output out img w1 = (Ok tt, emit line w1)).
  { rewrite verify_output_eval. unfold path_exists in X.
    destruct (node_at w1 (out_glb_maybe out img)); [discriminate|reflexivity]. }
  assert (J : job args sp pp out img w = (Ok tt, w2)).
  { eapply job_done; [exact E| |exact D].
    unfold job_body. erewrite bind_ok; [exact V|exact P]. }
  repeat split; [exact V|exact J|].
  now apply for_each_step.
Qed.

(** X7.  However the verification step ends, it leaves the working
    directory alone, and in the file system it touches nothing but the
    [.glb] and the [.obj] path of the job. *)
Theorem verify_output_touches_only_its_two_paths (out img : Path) w :
  cwd (snd (verify_output out img w)) = cwd w /\
  forall q : Path,
    q <> out_glb_maybe out img -> q <> out_obj out img ->
    node_at (snd (verify_output out img w)) q = node_at w q.
Proof.
  rewrite verify_output_eval.
  destruct (node_at w (out_glb_maybe out img)) as [[|data|]|] eqn:E;
    try (split; [reflexivity|intros; reflexivity]).
  destruct (bool_decide _); [split; [reflexivity|intros; reflexivity]|].
  destruct (obj_heuristic _); [|split; [reflexivity|intros; reflexivity]].
  unfold mbind, M_bind, replace. rewrite E.
  destruct (is_dir w (parent (out_obj out img)));
    [|split; [reflexivity|intros; reflexivity]].
  destruct (node_at w (out_obj out img)) as [[|old|]|];
    try (split; [reflexivity|intros; reflexivity]);
    rewrite print_eq; (split; [reflexivity|]); intros q G O;
    (destruct q as [|c q]; [reflexivity|]); cbn [snd emit set_fs node_at fs];
    now rewrite lookup_insert_ne, lookup_delete_ne by congruence.
Qed.

(** X8.  After a successful rename the [.glb] path names nothing, the
    [.obj] path holds the very bytes the paint stage wrote (whatever
    regular file was there before is gone), and verifying once more only
    reports the output as not found. *)
Theorem renamed_output_moves_the_bytes (out img : Path) w data :
  node_at w (out_glb_maybe out img) = Some (File data) ->
  Py.read 4 data <> Py.b "glTF" ->
  obj_heuristic (Py.read 64 data) = true ->
  is_dir w (per_item_dir out img) = true ->
  is_dir w (out_obj out img) = false ->
  node_at (snd (verify_output out img w)) (out_glb_maybe out img) = None /\
  node_at (snd (verify_output out img w)) (out_obj out img) = Some (File data) /\
  verify_output out img (snd (verify_output out img w)) =
  (Ok tt,
   emit "[WARN] output_mesh_path not found after paint. Check logs in this folder."
        (snd (verify_output out img w))).
Proof.
  intros F S H D O.
  assert (V : verify_output out img w =
              (Ok tt,
               emit ("[FIX] Output was OBJ text, renamed to: " +:+ name (out_obj out img))
                    (set_fs (<[out_obj out img := File data]>
                               (delete (out_glb_maybe out img) (fs w))) w))).
  { rewrite verify_output_eval, F, bool_decide_false, H by exact S.
    erewrite bind_ok; [apply print_eq|].
    apply replace_file_ok; [exact F| |exact O].
    unfold out_obj. now rewrite parent_join. }
  rewrite V. cbn [snd].
  assert (G : node_at (emit ("[FIX] Output was OBJ text, renamed to: "
                             +:+ name (out_obj out img))
                        (set_fs (<[out_obj out img := File data]>
                                   (delete (out_glb_maybe out img) (fs w))) w))
                      (out_glb_maybe out img) = None).
  { rewrite node_at_out_glb_maybe. cbn [emit set_fs fs].
    rewrite lookup_insert_ne by (apply not_eq_sym, out_glb_maybe_ne_out_obj).
    apply lookup_delete_eq. }
  split; [exact G|]. split.
  - rewrite node_at_out_obj. cbn [emit set_fs fs].
    apply lookup_insert_eq.
  - rewrite verify_output_eval, G. reflexivity.
Qed.

(** ** Alpha detection *)

(** X9.  [has_alpha_png] always returns and changes nothing.  Its answer is
    [True] exactly when the suffix is [.png] in some letter case, the file
    opens as an image, and the image is in RGBA or LA mode or has a
    [transparency] entry in its [info], whatever its mode. *)
Theorem has_alpha_png_exact (p : Path) w :
  exists b : bool,
    has_alpha_png p w = (Ok b, w) /\
    (b = true <->
     Py.lower (suffix p) = ".png" /\
     exists data im,
       node_at w p = Some (File data) /\ pil_identify data = inr im /\
       (mode im = "RGBA" \/ mode im = "LA" \/ "transparency" ∈ info im)).
Proof.
  rewrite has_alpha_png_eval. eexists. split; [reflexivity|].
  rewrite andb_true_iff, bool_decide_eq_true. split.
  - intros [S H]. split; [exact S|].
    destruct (node_at w p) as [[|data|]|]; try discriminate.
    destruct (pil_identify data) as [msg|im] eqn:I; [discriminate|].
    exists data, im. split; [reflexivity|]. split; [exact I|].
    apply orb_true_iff in H as [H|H]; apply bool_decide_eq_true in H.
    + apply elem_of_cons in H as [H|H]; [now left|].
      apply list_elem_of_singleton in H. right. now left.
    + right. now right.
  - intros [S (data & im & F & I & H)]. rewrite F, I. split; [exact S|].
    apply orb_true_iff. destruct H as [H|[H|H]].
    + left. apply bool_decide_eq_true. rewrite H. set_solver.
    + left. apply bool_decide_eq_true. rewrite H. set_solver.
    + right. now apply bool_decide_eq_true.
Qed.

(** ** The names of a job's files *)

Lemma rfind_range (c : ascii) (s : string) :
  (Py.rfind c s = -1 \/ 0 <= Py.rfind c s < Z.of_nat (String.length s))%Z.
Proof.
  induction s as [|a s IH]; [now left|]. cbn [Py.rfind String.length].
  destruct (Z.leb_spec 0 (Py.rfind c s)).
  - right. destruct IH; lia.
  - destruct (Ascii.eqb a c); [right|left; reflexivity].
    split; [reflexivity|]. apply (Nat2Z.inj_lt 0). apply Nat.lt_0_succ.
Qed.

Lemma rfind_app (c : ascii) (s t : string) :
  (0 <= Py.rfind c t)%Z ->
  Py.rfind c (s +:+ t) = (Z.of_nat (String.length s) + Py.rfind c t)%Z.
Proof.
  intros H. induction s as [|a s IH];
    [change ("" +:+ t) with t; cbn [String.length]; lia|].
  change (String a s +:+ t) with (String a (s +:+ t)).
  cbn [Py.rfind String.length]. rewrite IH.
  destruct (Z.leb_spec 0 (Z.of_nat (String.length s) + Py.rfind c t)); lia.
Qed.

Lemma length_append (s t : string) :
  String.length (s +:+ t) = (String.length s + String.length t)%nat.
Proof.
  induction s as [|a s IH]; [reflexivity|].
  change (String a s +:+ t) with (String a (s +:+ t)).
  cbn [String.length]. now rewrite IH.
Qed.

Lemma str_drop_app (s t : string) (k : nat) :
  Py.str_drop (String.length s + k) (s +:+ t) = Py.str_drop k t.
Proof. induction s as [|a s IH]; [reflexivity|]. exact IH. Qed.

Lemma length_str_take (i : nat) (s : string) :
  (i <= String.length s)%nat -> String.length (Py.str_take i s) = i.
Proof.
  revert s. induction i as [|i IH]; intros [|a s]; cbn; try lia.
  intros H. rewrite IH; lia.
Qed.

(** A name that ends in [t], where the last dot of [t] is at [k > 0] and
    is not its last character, has the suffix [t[k:]]. *)
Lemma name_suffix_app (s t : string) (k : nat) :
  Py.rfind "." t = Z.of_nat k ->
  (0 < k)%nat -> (k + 1 < String.length t)%nat ->
  name_suffix (s +:+ t) = Py.str_drop k t.
Proof.
  intros R K L. unfold name_suffix, dot_index.
  rewrite rfind_app, R, length_append by lia.
  destruct (Z.ltb_spec 0 (Z.of_nat (String.length s) + Z.of_nat k)); [|lia].
  destruct (Z.ltb_spec (Z.of_nat (String.length s) + Z.of_nat k)
              (Z.of_nat (String.length s + String.length t) - 1)); [|lia].
  cbn [andb].
  replace (Z.to_nat (Z.of_nat (String.length s) + Z.of_nat k))
    with (String.length s + k)%nat by lia.
  apply str_drop_app.
Qed.

(** X10.  Whatever the stem of the image, the files of its job carry the
    suffix the script means them to have; in particular the image that
    [main] asks background removal to save is always encoded as PNG. *)
Theorem job_files_have_their_suffix (out img : Path) :
  suffix (bg_png out img) = ".png" /\
  suffix (shape_glb out img) = ".glb" /\
  suffix (out_glb_maybe out img) = ".glb" /\
  suffix (out_obj out img) = ".obj" /\
  forall im w,
    Image_save im (bg_png out img) w =
    match pil_encode ".png" im with
    | inl msg => (Raise (Exception msg), w)
    | inr data => write_file (bg_png out img) data w
    end.
Proof.
  assert (B : suffix (bg_png out img) = ".png").
  { unfold suffix, bg_png. rewrite name_join.
    rewrite (name_suffix_app _ "_bgremoved.png" 10); [reflexivity|reflexivity|lia|cbn; lia]. }
  split; [exact B|]. split; [|split; [|split]].
  - unfold suffix, shape_glb. rewrite name_join.
    rewrite (name_suffix_app _ "_shape.glb" 6); [reflexivity|reflexivity|lia|cbn; lia].
  - unfold suffix, out_glb_maybe. rewrite name_join.
    rewrite (name_suffix_app _ "_textured.glb" 9); [reflexivity|reflexivity|lia|cbn; lia].
  - unfold suffix, out_obj. rewrite name_join.
    rewrite (name_suffix_app _ "_textured.obj" 9); [reflexivity|reflexivity|lia|cbn; lia].
  - intros im w. unfold Image_save. rewrite B.
    change (Py.lower ".png") with ".png".
    destruct (pil_encode ".png" im); reflexivity.
Qed.

(** A path made of the image's stem and a tail with a dot in it is not the
    image's own path. *)
Lemma stem_plus_tail_is_not_the_image (d img : Path) (t : string) (k : nat) :
  Py.rfind "." t = Z.of_nat k -> (0 < k)%nat ->
  join d (stem img +:+ t) <> img.
Proof.
  intros R K E. apply (f_equal name) in E. rewrite name_join in E.
  unfold stem, name_stem, dot_index in E. set (nm := name img) in *.
  assert (L : (0 < String.length t)%nat).
  { pose proof (rfind_range "." t). lia. }
  destruct (_ && _) eqn:B.
  - apply andb_true_iff in B as [B1 B2].
    apply Z.ltb_lt in B1, B2.
    assert (H : Py.rfind "." nm =
                (Z.of_nat (String.length
                             (Py.str_take (Z.to_nat (Py.rfind "." nm)) nm))
                 + Z.of_nat k)%Z).
    { rewrite <- E at 1. rewrite rfind_app; lia. }
    rewrite length_str_take in H by lia. lia.
  - apply (f_equal String.length) in E. rewrite length_append in E. lia.
Qed.

(** X11.  The source image and the four files of its job are five
    different paths: through these paths no stage of a job overwrites the
    image it was given or what another stage wrote. *)
Theorem job_paths_are_distinct (out img : Path) :
  NoDup [img; bg_png out img; shape_glb out img; out_glb_maybe out img;
         out_obj out img].
Proof.
  assert (T : forall d (s t1 t2 : string), t1 <> t2 -> join d (s +:+ t1) <> join d (s +:+ t2)).
  { intros d s t1 t2 N E. unfold join in E. apply app_inv_head in E.
    injection E as E. now apply String.app_inj in E. }
  repeat (apply NoDup_cons; split); try apply NoDup_nil_2;
    rewrite ?not_elem_of_cons; repeat split; try apply not_elem_of_nil;
    try (apply T; discriminate);
    apply not_eq_sym.
  - apply (stem_plus_tail_is_not_the_image _ _ _ 10); [reflexivity|lia].
  - apply (stem_plus_tail_is_not_the_image _ _ _ 6); [reflexivity|lia].
  - apply (stem_plus_tail_is_not_the_image _ _ _ 9); [reflexivity|lia].
  - apply (stem_plus_tail_is_not_the_image _ _ _ 9); [reflexivity|lia].
Qed.

(** ** Background removal, run again *)

Lemma write_file_inv (p : Path) data w w' :
  write_file p data w = (Ok tt, w') -> node_at w' p = Some (File data).
Proof.
  unfold write_file. destruct (is_dir w (parent p)); [|discriminate].
  destruct p as [|c p]; [discriminate|].
  destruct (node_at w (c :: p)) as [[|old|]|]; try discriminate;
    intros E; injection E as <-; cbn [node_at set_fs fs]; apply lookup_insert_eq.
Qed.

Lemma run_removal_inv (src dst r : Path) w w3 :
  run_removal src dst w = (Ok r, w3) ->
  r = dst /\
  exists out png,
    pil_encode (Py.lower (suffix dst)) (convert "RGBA" out) = inr png /\
    node_at w3 dst = Some (File png).
Proof.
  unfold run_removal. intros E.
  apply bind_inv_ok in E as ([] & w1 & _ & E).
  apply bind_inv_ok in E as (im & w1' & _ & E). cbv zeta in E.
  apply bind_inv_ok in E as (out & w2 & _ & E).
  apply bind_inv_ok in E as ([] & w3' & S & E).
  injection E as <- <-. split; [reflexivity|].
  unfold Image_save in S.
  destruct (pil_encode _ _) as [msg|png] eqn:P; [discriminate|].
  exists out, png. split; [exact P|]. eapply write_file_inv, S.
Qed.

(** X12.  What background removal returns as its destination is left
    alone by a later, unforced removal: provided PIL reads a PNG it wrote
    from an RGBA image back as an RGBA image, the saved file is found to
    have alpha and comes back unchanged, with nothing written. *)
Theorem removal_output_is_not_processed_again
    (src dst dst' : Path) (force : bool) w w3 :
  Py.lower (suffix dst) = ".png" ->
  (forall im png,
     mode im = "RGBA" -> pil_encode ".png" im = inr png ->
     exists im', pil_identify png = inr im' /\ mode im' = "RGBA") ->
  remove_background_to_png src dst force w = (Ok dst, w3) ->
  has_alpha_png dst w3 = (Ok true, w3) /\
  remove_background_to_png dst dst' false w3 = (Ok dst, w3).
Proof.
  intros S RT E.
  assert (H : has_alpha_png dst w3 = (Ok true, w3)).
  { unfold remove_background_to_png in E.
    apply bind_inv_ok in E as (skip & w1 & K & E).
    destruct skip.
    - injection E as -> <-. destruct force; cbn [negb] in K; [discriminate|].
      pose proof (has_alpha_png_eval dst w) as Hb. rewrite Hb in K.
      apply pair_equal_spec in K as [K <-]. now rewrite <- K.
    - apply run_removal_inv in E as (_ & out & png & P & N).
      rewrite S in P.
      destruct (RT _ _ (mode_convert "RGBA" out) P) as (im' & I & M).
      rewrite has_alpha_png_eval, N, I, (bool_decide_true _ S), M.
      reflexivity. }
  split; [exact H|]. now rewrite (remove_background_unforced _ _ _ _ H).
Qed.

(** ** What can stop a job, and a batch *)

(** The [except Exception] clause leaves only system-exiting exceptions
    to escape the [try]. *)
Lemma guarded_body_raises_only_system_exit
    args sp pp (out img : Path) w0 e w1 :
  try_except (job_body args sp pp out img) (job_failed img) w0 = (Raise e, w1) ->
  exists msg, e = SystemExiting msg.
Proof.
  unfold try_except, job_failed.
  destruct (job_body args sp pp out img w0) as [[[]|[msg|msg]] w'];
    rewrite ?print_eq; intros E; try discriminate.
  injection E as <- _. eauto.
Qed.

(** X13.  A job raises in three ways only: it could not make or enter its
    directory, a system-exiting exception crossed it, or the change back
    to the saved directory failed.  An [Exception] from its body never
    leaves it. *)
Theorem job_raises_in_three_ways_only
    args sp pp (out img : Path) w e w' :
  job args sp pp out img w = (Raise e, w') ->
  job_enter out img w = (Raise e, w') \/
  (exists msg, e = SystemExiting msg) \/
  (exists old w0 r w1,
     job_enter out img w = (Ok old, w0) /\
     try_except (job_body args sp pp out img) (job_failed img) w0 = (r, w1) /\
     chdir old w1 = (Raise e, w')).
Proof.
  unfold job. intros J.
  apply bind_inv_raise in J as [J|(old & w0 & E & J)]; [now left|].
  right. unfold try_finally in J.
  destruct (try_except _ _ w0) as [r w1] eqn:T.
  destruct (chdir old w1) as [[[]|e'] w2] eqn:C.
  - left. injection J as -> <-.
    eapply guarded_body_raises_only_system_exit, T.
  - right. injection J as <- <-. exists old, w0, r, w1. auto.
Qed.

#[local] Hint Resolve keeps_mret keeps_raise keeps_print keeps_gets
  keeps_getcwd keeps_chdir keeps_open_rb keeps_write_file keeps_mkdir : keeps.

Lemma keeps_job_enter (d out img : Path) : keeps_dir d (job_enter out img).
Proof. unfold job_enter. repeat keeps_step. Qed.

Section Batch.

(** The collaborators called inside a job leave the directory [d] in
    place; [d] is where the process is when the loop starts. *)
Variable d : Path.
Variable args : Args.
Variables (sp : ShapePipeline) (pp : PaintPipeline).
Variable out : Path.
Hypothesis rembg_keeps : forall im, keeps_dir d (BackgroundRemover im).
Hypothesis shapegen_keeps : forall im, keeps_dir d (shapegen sp im).
Hypothesis export_keeps : forall mesh p, keeps_dir d (mesh_export mesh p).
Hypothesis paint_keeps : forall a b c, keeps_dir d (paint pp a b c).

(** One job, from a world where the process is in [d]: it is in [d]
    again afterwards, [d] is still there, and if the job raised, it did so
    on entry or with a system-exiting exception. *)
Lemma job_from_kept_directory (img : Path) w :
  cwd w = d -> is_dir w d = true ->
  cwd (snd (job args sp pp out img w)) = d /\
  is_dir (snd (job args sp pp out img w)) d = true /\
  forall e, fst (job args sp pp out img w) = Raise e ->
    job_enter out img w = (Raise e, snd (job args sp pp out img w)) \/
    exists msg, e = SystemExiting msg.
Proof.
  intros C D. unfold job. unfold mbind, M_bind.
  pose proof (keeps_job_enter d out img w D) as KE.
  destruct (job_enter out img w) as [[old|e] w0] eqn:E; cbn [snd] in KE.
  - apply job_enter_spec in E as (-> & _ & _). rewrite C.
    pose proof (keeps_job_try d sp pp rembg_keeps shapegen_keeps export_keeps
                  paint_keeps args out img w0 KE) as T.
    unfold try_finally.
    destruct (try_except _ _ w0) as [r w1] eqn:R. cbn [snd] in T.
    rewrite (chdir_ok _ _ T). cbn [fst snd].
    split; [reflexivity|]. split; [exact T|].
    intros e ->. right. eapply guarded_body_raises_only_system_exit, R.
  - pose proof (job_enter_spec _ _ _ _ _ E) as C0. cbn [fst snd].
    split; [congruence|]. split; [exact KE|].
    intros e' [= ->]. now left.
Qed.

Lemma batch_from_kept_directory (imgs : list Path) w :
  cwd w = d -> is_dir w d = true ->
  cwd (snd (for_each imgs (job args sp pp out) w)) = d /\
  forall e, fst (for_each imgs (job args sp pp out) w) = Raise e ->
    (exists msg, e = SystemExiting msg) \/
    exists img wi,
      img ∈ imgs /\
      job_enter out img wi
      = (Raise e, snd (for_each imgs (job args sp pp out) w)).
Proof.
  revert w. induction imgs as [|img rest IH]; intros w C D.
  - split; [exact C|]. intros e [=].
  - cbn [for_each]. unfold mbind, M_bind.
    destruct (job_from_kept_directory img w C D) as (C1 & D1 & R1).
    destruct (job args sp pp out img w) as [[[]|e1] w1]; cbn [fst snd] in *.
    + destruct (IH w1 C1 D1) as [C2 R2]. split; [exact C2|].
      intros e He. destruct (R2 e He) as [S|(i & wi & Hi & Hj)]; [now left|].
      right. exists i, wi. split; [now right|exact Hj].
    + split; [exact C1|]. intros e [= <-].
      destruct (R1 e1 eq_refl) as [J|S]; [|now left].
      right. exists img, w. split; [left|exact J].
Qed.

End Batch.

(** X14.  Whatever the batch, and however it ends, the loop over the
    images leaves the process in the directory it started in, the
    collaborators being assumed not to remove that directory. *)
Theorem batch_restores_working_directory
    args (sp : ShapePipeline) (pp : PaintPipeline) (out : Path)
    (imgs : list Path) w :
  is_dir w (cwd w) = true ->
  (forall im, keeps_dir (cwd w) (BackgroundRemover im)) ->
  (forall im, keeps_dir (cwd w) (shapegen sp im)) ->
  (forall mesh p, keeps_dir (cwd w) (mesh_export mesh p)) ->
  (forall a b c, keeps_dir (cwd w) (paint pp a b c)) ->
  cwd (snd (for_each imgs (job args sp pp out) w)) = cwd w.
Proof.
  intros D Hr Hs He Hp.
  apply (batch_from_kept_directory (cwd w) args sp pp out Hr Hs He Hp imgs w
           eq_refl D).
Qed.

(** X15.  Under the same assumption, the loop stops early only when a
    system-exiting exception crosses a job or when some image's directory
    cannot be made or entered; no [Exception] from the body of a job ends
    the batch. *)
Theorem batch_stops_only_on_entry_or_system_exit
    args (sp : ShapePipeline) (pp : PaintPipeline) (out : Path)
    (imgs : list Path) w e w' :
  is_dir w (cwd w) = true ->
  (forall im, keeps_dir (cwd w) (BackgroundRemover im)) ->
  (forall im, keeps_dir (cwd w) (shapegen sp im)) ->
  (forall mesh p, keeps_dir (cwd w) (mesh_export mesh p)) ->
  (forall a b c, keeps_dir (cwd w) (paint pp a b c)) ->
  for_each imgs (job args sp pp out) w = (Raise e, w') ->
  (exists msg, e = SystemExiting msg) \/
  exists img wi, img ∈ imgs /\ job_enter out img wi = (Raise e, w').
Proof.
  intros D Hr Hs He Hp E.
  destruct (batch_from_kept_directory (cwd w) args sp pp out Hr Hs He Hp imgs w
              eq_refl D) as [_ R].
  rewrite E in R. apply (R e eq_refl).
Qed.

(** ** An image that cannot be opened *)

Lemma Image_open_raises (p : Path) w e w' :
  Image_open p w = (Raise e, w') ->
  w' = w /\ (exists msg, e = Exception msg) /\
  has_alpha_png p w = (Ok false, w).
Proof.
  rewrite Image_open_eval, has_alpha_png_eval.
  destruct (node_at w p) as [[|data|]|];
    [| destruct (pil_identify data) as [msg|im]; [|discriminate] | |];
    intros E; injection E as <- <-; rewrite andb_false_r; eauto.
Qed.

Lemma mkdir_all_there (l : list Path) (m : gmap Path node) :
  (forall q, q ∈ l -> m !! q = Some Dir) ->
  foldr (fun q m => <[q := Dir]> m) m l = m.
Proof.
  induction l as [|a l IH]; intros H; [reflexivity|]. cbn [foldr].
  rewrite IH by (intros q Hq; apply H; now right).
  apply insert_id, H. left.
Qed.

(** Making the job directory once more, after the job has entered it,
    changes nothing. *)
Lemma mkdir_after_job_enter (out img old : Path) w w0 :
  job_enter out img w = (Ok old, w0) ->
  mkdir (per_item_dir out img) w0 = (Ok tt, w0).
Proof.
  unfold job_enter. intros E.
  apply bind_inv_ok in E as ([] & wa & K & E).
  unfold mbind, M_bind, print, getcwd in E.
  destruct (chdir _ _) as [[[]|e] wb] eqn:C; [|discriminate].
  injection E as _ <-.
  assert (F : fs wb = fs wa).
  { unfold chdir in C. destruct (node_at _ _) as [[]|]; try discriminate.
    now injection C as <-. }
  assert (A : forall q, q ∈ ancestors_and_self (per_item_dir out img) ->
                        fs wb !! q = Some Dir).
  { intros q Hq. rewrite F. unfold mkdir in K.
    destruct (forallb _ _); [|discriminate]. injection K as <-.
    cbn [set_fs fs]. now rewrite mkdir_lookup, bool_decide_true. }
  unfold mkdir.
  replace (forallb _ _) with true.
  - rewrite (mkdir_all_there _ _ A). now destruct wb.
  - symmetry. apply forallb_forall. intros q Hq%list_elem_of_In.
    now rewrite (A q Hq).
Qed.

(** X16.  When the image of a job cannot be opened (it is gone, it is a
    directory, it may not be read, or PIL does not recognise it), the job
    fails before the remover or a pipeline is called, with or without
    [--remove-bg]: all the job leaves behind is its directory and the
    [ERROR] line with PIL's or the system's message, and the loop goes
    on. *)
Theorem unopenable_image_fails_before_any_model
    args sp pp (out img : Path) (rest : list Path) w (old : Path) w0 e w0' :
  is_dir w (cwd w) = true ->
  job_enter out img w = (Ok old, w0) ->
  Image_open img w0 = (Raise e, w0') ->
  exists msg,
    e = Exception msg /\
    job_body args sp pp out img w0 = (Raise (Exception msg), w0) /\
    job args sp pp out img w =
    (Ok tt, set_cwd old (emit ("[ERROR] Failed on " +:+ name img +:+ ": " +:+ msg) w0)) /\
    for_each (img :: rest) (job args sp pp out) w =
    for_each rest (job args sp pp out)
      (set_cwd old (emit ("[ERROR] Failed on " +:+ name img +:+ ": " +:+ msg) w0)).
Proof.
  intros D E O.
  destruct (Image_open_raises _ _ _ _ O) as (-> & (msg & ->) & A).
  exists msg. split; [reflexivity|].
  assert (B : job_body args sp pp out img w0 = (Raise (Exception msg), w0)).
  { unfold job_body, job_pipeline. apply bind_raise.
    destruct (remove_bg args) eqn:Rb.
    - apply bind_raise. unfold job_input. rewrite Rb. apply bind_raise.
      assert (R : run_removal img (bg_png out img) w0 = (Raise (Exception msg), w0)).
      { unfold run_removal, bg_png. rewrite parent_join.
        rewrite (bind_ok _ _ _ _ _ (mkdir_after_job_enter _ _ _ _ _ E)).
        now apply bind_raise. }
      destruct (force_remove args).
      + now rewrite remove_background_forced.
      + now rewrite (remove_background_unforced _ _ _ _ A).
    - unfold job_input. rewrite Rb.
      erewrite bind_ok by reflexivity.
      unfold job_models. now apply bind_raise. }
  split; [exact B|].
  assert (K : is_dir w0 old = true).
  { pose proof (job_enter_spec _ _ _ _ _ E) as (-> & _ & K). now apply K. }
  assert (J : job args sp pp out img w =
              (Ok tt, set_cwd old (emit ("[ERROR] Failed on " +:+ name img +:+ ": " +:+ msg) w0)))
    by (eapply job_caught; eauto).
  split; [exact J|]. now apply for_each_step.
Qed.

(** ** Jobs next to each other *)

Lemma append_same_length_tails (s1 s2 t1 t2 : string) :
  s1 +:+ t1 = s2 +:+ t2 -> String.length t1 = String.length t2 ->
  s1 = s2 /\ t1 = t2.
Proof.
  revert s2. induction s1 as [|a s1 IH]; intros [|c s2] E L.
  - auto.
  - change (t1 = String c (s2 +:+ t2)) in E.
    apply (f_equal String.length) in E.
    cbn [String.length] in E. rewrite length_append in E. lia.
  - change (String a (s1 +:+ t1) = t2) in E.
    apply (f_equal String.length) in E.
    cbn [String.length] in E. rewrite length_append in E. lia.
  - change (String a (s1 +:+ t1) = String c (s2 +:+ t2)) in E.
    injection E as -> E. destruct (IH _ E L) as [-> ->]. auto.
Qed.

Lemma append_shorter_tail (s1 s2 t1 t2 : string) :
  s1 +:+ t1 = s2 +:+ t2 -> (String.length t1 <= String.length t2)%nat ->
  Py.str_drop (String.length t2 - String.length t1) t2 = t1.
Proof.
  revert s1. induction s2 as [|c s2 IH]; intros s1 E L.
  - change (s1 +:+ t1 = t2) in E. subst t2. rewrite length_append.
    replace (String.length s1 + String.length t1 - String.length t1)%nat
      with (String.length s1 + 0)%nat by lia.
    now rewrite str_drop_app.
  - destruct s1 as [|a s1].
    + change (t1 = String c (s2 +:+ t2)) in E.
      apply (f_equal String.length) in E.
      cbn [String.length] in E. rewrite length_append in E. lia.
    + change (String a (s1 +:+ t1) = String c (s2 +:+ t2)) in E.
      injection E as _ E. now apply (IH s1).
Qed.

(** Two names built on the tails the script uses are equal only when stem
    and tail are. *)
Lemma job_file_names_inj (s1 s2 t1 t2 : string) :
  t1 ∈ ["_bgremoved.png"; "_shape.glb"; "_textured.glb"; "_textured.obj"] ->
  t2 ∈ ["_bgremoved.png"; "_shape.glb"; "_textured.glb"; "_textured.obj"] ->
  s1 +:+ t1 = s2 +:+ t2 -> s1 = s2.
Proof.
  intros H1 H2 E.
  destruct (Nat.le_ge_cases (String.length t1) (String.length t2)) as [L|L].
  - pose proof (append_shorter_tail _ _ _ _ E L) as D.
    destruct (decide (t1 = t2)) as [->|N].
    + now destruct (append_same_length_tails _ _ _ _ E eq_refl).
    + exfalso.
      rewrite !elem_of_cons in H1, H2.
      destruct H1 as [?|[?|[?|[?|H1]]]]; [| | | |now apply not_elem_of_nil in H1];
        (destruct H2 as [?|[?|[?|[?|H2]]]]; [| | | |now apply not_elem_of_nil in H2]);
        subst; first [now apply N | discriminate D].
  - symmetry in E. pose proof (append_shorter_tail _ _ _ _ E L) as D.
    destruct (decide (t1 = t2)) as [->|N].
    + symmetry in E. now destruct (append_same_length_tails _ _ _ _ E eq_refl).
    + exfalso.
      rewrite !elem_of_cons in H1, H2.
      destruct H1 as [?|[?|[?|[?|H1]]]]; [| | | |now apply not_elem_of_nil in H1];
        (destruct H2 as [?|[?|[?|[?|H2]]]]; [| | | |now apply not_elem_of_nil in H2]);
        subst; first [now apply N | discriminate D].
Qed.

Lemma job_file_name (out img p : Path) :
  p ∈ [bg_png out img; shape_glb out img; out_glb_maybe out img;
       out_obj out img] ->
  exists t,
    t ∈ ["_bgremoved.png"; "_shape.glb"; "_textured.glb"; "_textured.obj"] /\
    name p = stem img +:+ t.
Proof.
  rewrite !elem_of_cons. intros [E|[E|[E|[E|E]]]];
    [exists "_bgremoved.png" | exists "_shape.glb" | exists "_textured.glb"
     | exists "_textured.obj" | now apply not_elem_of_nil in E];
    (split; [set_solver|rewrite E; apply name_join]).
Qed.

(** X17.  Images with different stems never share a job file: none of the
    four files of one job is among the four files of the other.  (Images
    with the same stem, [cat.png] and [cat.jpg], share all four.) *)
Theorem jobs_with_different_stems_share_no_file (out img1 img2 p : Path) :
  stem img1 <> stem img2 ->
  p ∈ [bg_png out img1; shape_glb out img1; out_glb_maybe out img1;
       out_obj out img1] ->
  p ∉ [bg_png out img2; shape_glb out img2; out_glb_maybe out img2;
       out_obj out img2].
Proof.
  intros N H1 H2. apply N.
  destruct (job_file_name _ _ _ H1) as (t1 & I1 & E1).
  destruct (job_file_name _ _ _ H2) as (t2 & I2 & E2).
  rewrite E1 in E2. exact (job_file_names_inj _ _ _ _ I1 I2 E2).
Qed.

(** ** Only the head of the output counts *)

(** X18.  The two predicates look at the first 64 bytes at most: paint
    outputs that agree there get the same answers, however they go on. *)
Theorem predicates_depend_on_the_head_only (p : Path) w1 w2 data1 data2 :
  node_at w1 p = Some (File data1) ->
  node_at w2 p = Some (File data2) ->
  take 64 data1 = take 64 data2 ->
  fst (is_valid_glb p w1) = fst (is_valid_glb p w2) /\
  fst (looks_like_obj_text p w1) = fst (looks_like_obj_text p w2).
Proof.
  intros F1 F2 H.
  rewrite !is_valid_glb_eval, !looks_like_obj_text_eval, F1, F2. cbn [fst].
  unfold Py.read. rewrite H. split; [|reflexivity].
  replace (take 4 data1) with (take 4 (take 64 data1))
    by (rewrite take_take; reflexivity).
  replace (take 4 data2) with (take 4 (take 64 data2))
    by (rewrite take_take; reflexivity).
  now rewrite H.
Qed.

(** ** The outcomes of the verification *)

(** X19.  The verification step has five outcomes and no other.  When it
    returns it has printed exactly one line, one of its four messages
    (accepted, renamed, unrecognised, not found); when it raises, which
    only the rename can make it do, it has printed nothing and changed
    nothing, and what it raises is an [Exception]. *)
Theorem verify_output_outcomes (out img : Path) w r w' :
  verify_output out img w = (r, w') ->
  match r with
  | Ok _ =>
      exists line,
        stdout w' = stdout w ++ [line] /\
        line ∈ [ "[OK] Textured GLB exported: " +:+ stem img +:+ "_textured.glb";
                 "[FIX] Output was OBJ text, renamed to: " +:+ stem img +:+ "_textured.obj";
                 "[WARN] Output exists but is not valid GLB and doesn't look like OBJ: "
                   +:+ stem img +:+ "_textured.glb";
                 "[WARN] output_mesh_path not found after paint. Check logs in this folder." ]
  | Raise e => w' = w /\ exists msg, e = Exception msg
  end.
Proof.
  rewrite verify_output_eval.
  replace (name (out_glb_maybe out img)) with (stem img +:+ "_textured.glb")
    by (symmetry; apply name_join).
  replace (name (out_obj out img)) with (stem img +:+ "_textured.obj")
    by (symmetry; apply name_join).
  assert (A : forall line v,
             line ∈ [ "[OK] Textured GLB exported: " +:+ stem img +:+ "_textured.glb";
                      "[FIX] Output was OBJ text, renamed to: " +:+ stem img +:+ "_textured.obj";
                      "[WARN] Output exists but is not valid GLB and doesn't look like OBJ: "
                        +:+ stem img +:+ "_textured.glb";
                      "[WARN] output_mesh_path not found after paint. Check logs in this folder." ] ->
             stdout v = stdout w ->
             (Ok tt, emit line v) = (r, w') ->
             match r with
             | Ok _ =>
                 exists line,
                   stdout w' = stdout w ++ [line] /\
                   line ∈ [ "[OK] Textured GLB exported: " +:+ stem img +:+ "_textured.glb";
                            "[FIX] Output was OBJ text, renamed to: " +:+ stem img +:+ "_textured.obj";
                            "[WARN] Output exists but is not valid GLB and doesn't look like OBJ: "
                              +:+ stem img +:+ "_textured.glb";
                            "[WARN] output_mesh_path not found after paint. Check logs in this folder." ]
             | Raise e => w' = w /\ exists msg, e = Exception msg
             end).
  { intros line v I S E. injection E as <- <-. exists line.
    split; [cbn [emit stdout]; now rewrite S|exact I]. }
  destruct (node_at w (out_glb_maybe out img)) as [[|data|]|] eqn:E.
  - apply A; [|reflexivity].
    repeat first [apply list_elem_of_here | apply list_elem_of_further].
  - destruct (bool_decide _).
    { apply A; [|reflexivity].
      repeat first [apply list_elem_of_here | apply list_elem_of_further]. }
    destruct (obj_heuristic _).
    2:{ apply A; [|reflexivity].
        repeat first [apply list_elem_of_here | apply list_elem_of_further]. }
    unfold mbind, M_bind, replace. rewrite E.
    destruct (is_dir w (parent (out_obj out img)));
      [|intros H; injection H as <- <-; split; [reflexivity|eexists; reflexivity]].
    destruct (node_at w (out_obj out img)) as [[|old|]|];
      [intros H; injection H as <- <-; split; [reflexivity|eexists; reflexivity]
      | | | ];
      rewrite print_eq; (apply A; [|reflexivity]);
      repeat first [apply list_elem_of_here | apply list_elem_of_further].
  - apply A; [|reflexivity].
    repeat first [apply list_elem_of_here | apply list_elem_of_further].
  - apply A; [|reflexivity].
    repeat first [apply list_elem_of_here | apply list_elem_of_further].
Qed.

End MoreFacts.

(** * The further facts at work *)

Import Samples.

(** X1 at work: of what is in this [input/], the scan keeps [UP.PNG] and
    leaves out the image one level down. *)
Lemma mixed_input_scan_members :
  collect_images input_dir mixed_input
  = (Ok found_in_mixed_input, mixed_input) /\
  up_png ∈ found_in_mixed_input /\
  (deep_png ∉ found_in_mixed_input) /\
  (notes_txt ∉ found_in_mixed_input).
Proof.
  assert (E : collect_images input_dir mixed_input
              = (Ok found_in_mixed_input, mixed_input))
    by (vm_compute; reflexivity).
  split; [exact E|].
  destruct (collect_images_characterised _ _ _ _ E) as [_ H].
  split; [|split].
  - apply H. split; [discriminate|]. split; [reflexivity|].
    split; [reflexivity|]. vm_compute. apply list_elem_of_here.
  - intros I. apply H in I as (_ & P & _). discriminate P.
  - intros I. apply H in I as (_ & _ & _ & X). vm_compute in X.
    repeat (apply elem_of_cons in X as [X|X]; [discriminate X|]).
    now apply not_elem_of_nil in X.
Defined.

(** X2 at work on the same directory. *)
Lemma mixed_input_scan_in_order :
  StronglySorted (fun p q : Path => Is_true (path_leb p q)) found_in_mixed_input /\
  NoDup found_in_mixed_input.
Proof.
  apply (collect_images_sorted_nodup input_dir mixed_input
           found_in_mixed_input mixed_input).
  vm_compute. reflexivity.
Defined.

Lemma demo_paint_idle_keeps (d out : Path) : keeps_dir d (paint_idle out).
Proof. apply keeps_mret. Qed.

Lemma demo_png_round_trip (im : Image) (png : list byte) :
  mode im = "RGBA" -> encode ".png" im = inr png ->
  exists im', identify png = inr im' /\ mode im' = "RGBA".
Proof.
  intros M E. unfold encode in E. rewrite bool_decide_true in E by reflexivity.
  injection E as <-. rewrite M. eexists. split; reflexivity.
Qed.


(** X4 at work: [--path /app/input/cat.png] makes a batch of one. *)
Lemma cat_alone_is_processed :
  is_file (ready two_images) cat = true /\
  main (Ext := externals paint_idle) SCRIPT_DIR
       (mkArgs false false (Some "/app/input/cat.png")) two_images =
  run_batch (Ext := externals paint_idle)
            (mkArgs false false (Some "/app/input/cat.png")) SCRIPT_DIR
            (resolve (join SCRIPT_DIR "output")) [cat] (ready two_images).
Proof.
  split; [reflexivity|].
  apply (proj2 (single_file_mode_runs_one_job (Ext := externals paint_idle)
                  SCRIPT_DIR (mkArgs false false (Some "/app/input/cat.png"))
                  two_images (ready two_images) "/app/input/cat.png"
                  ltac:(vm_compute; reflexivity) eq_refl
                  ltac:(discriminate) ltac:(vm_compute; reflexivity))).
Defined.

(** X5 at work: the model directory is not there; [main] raises after
    its first [INFO] line and no job is started. *)
Lemma missing_model_stops_main :
  main (Ext := with_constructors no_model load_paint) SCRIPT_DIR plain two_images
  = (Raise (Exception "model directory not found"),
     emit ("[INFO] Loading shape model from: " +:+ MODEL_PATH) (ready two_images)) /\
  main (Ext := with_constructors load_shape no_paint_config) SCRIPT_DIR plain
       two_images
  = (Raise (Exception "hunyuan-paint-pbr.yaml not found"),
     emit "[INFO] Loading paint pipeline..."
       (emit "shape pipeline: loaded"
          (emit ("[INFO] Loading shape model from: " +:+ MODEL_PATH)
                (ready two_images)))).
Proof.
  split.
  - apply (proj1 (pipeline_construction_failure_is_fatal
                    (Ext := with_constructors no_model load_paint)
                    SCRIPT_DIR plain two_images (ready two_images) cat [dog]
                    (ready two_images)
                    ltac:(vm_compute; reflexivity) ltac:(vm_compute; reflexivity))).
    reflexivity.
  - apply (proj2 (pipeline_construction_failure_is_fatal
                    (Ext := with_constructors load_shape no_paint_config)
                    SCRIPT_DIR plain two_images (ready two_images) cat [dog]
                    (ready two_images)
                    ltac:(vm_compute; reflexivity) ltac:(vm_compute; reflexivity))
                 tt
                 (emit "shape pipeline: loaded"
                    (emit ("[INFO] Loading shape model from: " +:+ MODEL_PATH)
                          (ready two_images)))).
    + reflexivity.
    + reflexivity.
Defined.

(** X6 at work: the paint stage writes nothing; the job warns and the loop
    turns to [dog.jpg]. *)
Lemma idle_paint_stage_run :
  path_exists (painted paint_idle plain cat two_images)
              (out_glb_maybe output_dir cat) = false /\
  for_each [cat; dog] (job (Ext := externals paint_idle) plain tt tt output_dir)
           two_images =
  for_each [dog] (job (Ext := externals paint_idle) plain tt tt output_dir)
    (set_cwd ["home"]
       (emit "[WARN] output_mesh_path not found after paint. Check logs in this folder."
             (painted paint_idle plain cat two_images))).
Proof.
  split; [vm_compute; reflexivity|].
  apply (missing_output_warns_and_batch_continues (Ext := externals paint_idle)
           plain tt tt output_dir cat [dog] two_images ["home"]
           (entered cat two_images) (painted paint_idle plain cat two_images));
    vm_compute; reflexivity.
Defined.

(** X8 at work on the OBJ text of [obj_output]. *)
Lemma obj_text_is_moved :
  node_at (snd (verify_output output_dir cat obj_output))
          (out_glb_maybe output_dir cat) = None /\
  node_at (snd (verify_output output_dir cat obj_output))
          (out_obj output_dir cat) = Some (File (Py.b "  # Blender OBJ")) /\
  verify_output output_dir cat (snd (verify_output output_dir cat obj_output)) =
  (Ok tt,
   emit "[WARN] output_mesh_path not found after paint. Check logs in this folder."
        (snd (verify_output output_dir cat obj_output))).
Proof.
  apply (renamed_output_moves_the_bytes output_dir cat obj_output
           (Py.b "  # Blender OBJ")).
  - reflexivity.
  - intros H. vm_compute in H. discriminate H.
  - reflexivity.
  - reflexivity.
  - reflexivity.
Defined.

(** X12 at work: the cut-out of [cat.png] is not cut out again. *)
Lemma cut_out_cat_is_kept :
  remove_background_to_png (Ext := externals paint_idle) cat
    (bg_png output_dir cat) false two_images
  = (Ok (bg_png output_dir cat), cat_cut_out) /\
  remove_background_to_png (Ext := externals paint_idle) (bg_png output_dir cat)
    (bg_png output_dir (bg_png output_dir cat)) false cat_cut_out
  = (Ok (bg_png output_dir cat), cat_cut_out).
Proof.
  assert (E : remove_background_to_png (Ext := externals paint_idle) cat
                (bg_png output_dir cat) false two_images
              = (Ok (bg_png output_dir cat), cat_cut_out))
    by (vm_compute; reflexivity).
  split; [exact E|].
  apply (removal_output_is_not_processed_again (Ext := externals paint_idle)
           cat (bg_png output_dir cat) (bg_png output_dir (bg_png output_dir cat))
           false two_images cat_cut_out).
  - reflexivity.
  - exact demo_png_round_trip.
  - exact E.
Defined.

(** X13 at work: the job of [dog.jpg] cannot make its directory. *)
Lemma dog_job_raises_on_entry :
  job (Ext := externals paint_idle) plain tt tt output_dir dog dog_dir_is_a_file
  = (Raise (Exception "FileExistsError"), dog_dir_is_a_file) /\
  (job_enter output_dir dog dog_dir_is_a_file
   = (Raise (Exception "FileExistsError"), dog_dir_is_a_file) \/
   (exists msg, Exception "FileExistsError" = SystemExiting msg) \/
   (exists old w0 r w1,
      job_enter output_dir dog dog_dir_is_a_file = (Ok old, w0) /\
      try_except (job_body (Ext := externals paint_idle) plain tt tt output_dir dog)
                 (job_failed dog) w0 = (r, w1) /\
      chdir old w1 = (Raise (Exception "FileExistsError"), dog_dir_is_a_file))).
Proof.
  assert (E : job (Ext := externals paint_idle) plain tt tt output_dir dog
                  dog_dir_is_a_file
              = (Raise (Exception "FileExistsError"), dog_dir_is_a_file))
    by (vm_compute; reflexivity).
  split; [exact E|].
  exact (job_raises_in_three_ways_only (Ext := externals paint_idle)
           plain tt tt output_dir dog dog_dir_is_a_file _ _ E).
Defined.

(** X14 at work: both jobs fail in the paint stage, and the process is
    back in [/home] after the loop. *)
Lemma failing_batch_returns_home :
  is_dir two_images (cwd two_images) = true /\
  cwd (snd (for_each [cat; dog]
              (job (Ext := externals paint_fails) with_remove_bg tt tt output_dir)
              two_images)) = ["home"].
Proof.
  split; [reflexivity|].
  apply (batch_restores_working_directory (Ext := externals paint_fails)
           with_remove_bg tt tt output_dir [cat; dog] two_images).
  - reflexivity.
  - intros im. exact (demo_rembg_keeps _ im).
  - intros im. exact (keeps_mret _ [tt]).
  - intros mesh p. exact (keeps_write_file _ (of_str p) _).
  - intros a b c. exact (demo_paint_fails_keeps _ (of_str c)).
Defined.

(** X15 at work: [cat.png] is processed, then the batch stops at
    [dog.jpg], whose directory cannot be made. *)
Lemma batch_stops_at_dog :
  fst (for_each [cat; dog]
         (job (Ext := externals paint_idle) plain tt tt output_dir)
         dog_dir_is_a_file)
  = Raise (Exception "FileExistsError") /\
  ((exists msg, Exception "FileExistsError" = SystemExiting msg) \/
   exists img wi,
     img ∈ [cat; dog] /\
     job_enter output_dir img wi
     = (Raise (Exception "FileExistsError"),
        snd (for_each [cat; dog]
               (job (Ext := externals paint_idle) plain tt tt output_dir)
               dog_dir_is_a_file))).
Proof.
  split; [vm_compute; reflexivity|].
  apply (batch_stops_only_on_entry_or_system_exit (Ext := externals paint_idle)
           plain tt tt output_dir [cat; dog] dog_dir_is_a_file).
  - reflexivity.
  - intros im. exact (demo_rembg_keeps _ im).
  - intros im. exact (keeps_mret _ [tt]).
  - intros mesh p. exact (keeps_write_file _ (of_str p) _).
  - intros a b c. exact (demo_paint_idle_keeps _ (of_str c)).
  - vm_compute. reflexivity.
Defined.

(** X16 at work: [cat.png] holds an error page instead of an image. *)
Lemma garbled_cat_fails_early :
  Image_open (Ext := externals paint_idle) cat (entered cat garbled_cat)
  = (Raise (Exception "cannot identify image file"), entered cat garbled_cat) /\
  exists msg,
    Exception "cannot identify image file" = Exception msg /\
    job_body (Ext := externals paint_idle) with_remove_bg tt tt output_dir cat
             (entered cat garbled_cat)
    = (Raise (Exception msg), entered cat garbled_cat) /\
    job (Ext := externals paint_idle) with_remove_bg tt tt output_dir cat
        garbled_cat =
    (Ok tt, set_cwd ["home"]
              (emit ("[ERROR] Failed on " +:+ name cat +:+ ": " +:+ msg)
                    (entered cat garbled_cat))) /\
    for_each [cat; dog]
      (job (Ext := externals paint_idle) with_remove_bg tt tt output_dir)
      garbled_cat =
    for_each [dog]
      (job (Ext := externals paint_idle) with_remove_bg tt tt output_dir)
      (set_cwd ["home"]
         (emit ("[ERROR] Failed on " +:+ name cat +:+ ": " +:+ msg)
               (entered cat garbled_cat))).
Proof.
  assert (O : Image_open (Ext := externals paint_idle) cat (entered cat garbled_cat)
              = (Raise (Exception "cannot identify image file"),
                 entered cat garbled_cat))
    by (vm_compute; reflexivity).
  split; [exact O|].
  apply (unopenable_image_fails_before_any_model (Ext := externals paint_idle)
           with_remove_bg tt tt output_dir cat [dog] garbled_cat ["home"]
           (entered cat garbled_cat) _ _ eq_refl
           ltac:(vm_compute; reflexivity) O).
Defined.

(** X17 at work: the shape file of [cat.png] is no file of the job of
    [dog.jpg]. *)
Lemma cat_and_dog_share_no_file :
  stem cat <> stem dog /\
  (shape_glb output_dir cat
   ∉ [bg_png output_dir dog; shape_glb output_dir dog;
      out_glb_maybe output_dir dog; out_obj output_dir dog]).
Proof.
  assert (N : stem cat <> stem dog) by (vm_compute; discriminate).
  split; [exact N|].
  apply (jobs_with_different_stems_share_no_file output_dir cat dog _ N).
  apply list_elem_of_further, list_elem_of_here.
Defined.

(** X18 at work: the OBJ text with its late [mtllib] line and its first
    64 bytes alone get the same answers. *)
Lemma late_mtllib_and_its_head :
  take 64 late_mtllib = take 64 (take 64 late_mtllib) /\
  fst (is_valid_glb (out_glb_maybe output_dir cat) late_mtllib_output)
  = fst (is_valid_glb (out_glb_maybe output_dir cat) late_mtllib_cut) /\
  fst (looks_like_obj_text (out_glb_maybe output_dir cat) late_mtllib_output)
  = fst (looks_like_obj_text (out_glb_maybe output_dir cat) late_mtllib_cut).
Proof.
  split; [reflexivity|].
  apply (predicates_depend_on_the_head_only (out_glb_maybe output_dir cat)
           late_mtllib_output late_mtllib_cut late_mtllib (take 64 late_mtllib));
    reflexivity.
Defined.

(** X19 at work: the zip archive is reported with one line; the rename
    onto a directory prints nothing. *)
Lemma zip_archive_gets_one_line :
  verify_output output_dir cat zip_output
  = (Ok tt, snd (verify_output output_dir cat zip_output)) /\
  exists line,
    stdout (snd (verify_output output_dir cat zip_output))
    = stdout zip_output ++ [line] /\
    line ∈ [ "[OK] Textured GLB exported: " +:+ stem cat +:+ "_textured.glb";
             "[FIX] Output was OBJ text, renamed to: " +:+ stem cat +:+ "_textured.obj";
             "[WARN] Output exists but is not valid GLB and doesn't look like OBJ: "
               +:+ stem cat +:+ "_textured.glb";
             "[WARN] output_mesh_path not found after paint. Check logs in this folder." ].
Proof.
  assert (E : verify_output output_dir cat zip_output
              = (Ok tt, snd (verify_output output_dir cat zip_output)))
    by (vm_compute; reflexivity).
  split; [exact E|].
  exact (verify_output_outcomes output_dir cat zip_output _ _ E).
Defined.
